(** * SmartStudy AI: the quiz-text parser and the quiz scorer of [app.py]

    A shallow embedding of [parse_quiz_for_display],
    [create_fallback_quiz_data] and the scoring part of
    [display_quiz_results], with the parts of Python's [str] and [re]
    that these functions call.

    Strings.  A Python [str] is a sequence of code points.  Here a string
    is a [string] of Rocq, whose characters are the 256 code points of
    Latin-1: on them [str.lower], [str.isspace], [str.strip],
    [str.split], [\s] and [\d] stay inside Latin-1 and are embedded
    exactly.  Code points above 255 are outside the model. *)

From Stdlib Require Import Ascii String NArith ZArith QArith Lia.
From Stdlib Require Import DecimalString DecimalNat DecimalFacts.
From stdpp Require Import base option list strings gmap.

Local Open Scope string_scope.

(* ===================================================================== *)
(** * Python's [str] operations                                           *)
(* ===================================================================== *)

Module Py.

(** [ch.isspace()], also the class [\s] of [re] and the separators of
    [strip()] and [split()]: U+0009..U+000D, U+001C..U+0020, U+0085,
    U+00A0. *)
Definition isspace (c : ascii) : bool :=
  let n := N_of_ascii c in
  ((9 <=? n) && (n <=? 13) || (28 <=? n) && (n <=? 32)
   || (n =? 133) || (n =? 160))%N.

(** The class [\d] of [re]: the decimal digits. *)
Definition isdigit (c : ascii) : bool :=
  let n := N_of_ascii c in ((48 <=? n) && (n <=? 57))%N.

(** [ch.lower()]: A..Z and the Latin-1 capitals U+00C0..U+00DE, the
    multiplication sign U+00D7 apart, move up by 32. *)
Definition lower_char (c : ascii) : ascii :=
  let n := N_of_ascii c in
  if ((65 <=? n) && (n <=? 90)
      || (192 <=? n) && (n <=? 222) && negb (n =? 215))%N
  then ascii_of_N (n + 32) else c.

(** [s.lower()] *)
Fixpoint lower (s : string) : string :=
  match s with
  | EmptyString => EmptyString
  | String c s' => String (lower_char c) (lower s')
  end.

(** [s.lstrip()], [s.rstrip()], [s.strip()] *)
Fixpoint lstrip (s : string) : string :=
  match s with
  | EmptyString => EmptyString
  | String c s' => if isspace c then lstrip s' else s
  end.

Fixpoint rstrip (s : string) : string :=
  match s with
  | EmptyString => EmptyString
  | String c s' =>
      match rstrip s' with
      | EmptyString => if isspace c then EmptyString else String c EmptyString
      | r => String c r
      end
  end.

Definition strip (s : string) : string := rstrip (lstrip s).

(** [s.split()]: the maximal runs of characters that are not white
    space, in order; [cur] is the run being read. *)
Fixpoint split_from (cur s : string) : list string :=
  match s with
  | EmptyString =>
      match cur with EmptyString => [] | _ => [cur] end
  | String c s' =>
      if isspace c
      then match cur with
           | EmptyString => split_from EmptyString s'
           | _ => cur :: split_from EmptyString s'
           end
      else split_from (String.append cur (String c EmptyString)) s'
  end.

Definition split (s : string) : list string := split_from EmptyString s.

(** [s.startswith(p)] *)
Fixpoint startswith (p s : string) : bool :=
  match p, s with
  | EmptyString, _ => true
  | String a p', String b s' => Ascii.eqb a b && startswith p' s'
  | String _ _, EmptyString => false
  end.

(** [needle in hay]: [needle] starts at some position of [hay]. *)
Fixpoint contains (needle hay : string) : bool :=
  startswith needle hay
  || match hay with
     | EmptyString => false
     | String _ hay' => contains needle hay'
     end.

(** [s[:n]] *)
Fixpoint slice_to (n : nat) (s : string) : string :=
  match n, s with
  | S n', String c s' => String c (slice_to n' s')
  | _, _ => EmptyString
  end.

(** [str(n)] for a non-negative [int], as an f-string prints it. *)
Definition str_of_nat (n : nat) : string :=
  NilZero.string_of_uint (Nat.to_uint n).

(** [d.get(key, "")] *)
Definition get (d : gmap string string) (key : string) : string :=
  default EmptyString (d !! key).

(** [a / b] on integers: the true quotient, [ZeroDivisionError] ([None])
    when [b] is zero.  Python rounds the quotient to a binary64 float;
    the embedding keeps the exact rational. *)
Definition truediv (a b : nat) : option Q :=
  if Nat.eqb b 0 then None
  else Some (inject_Z (Z.of_nat a) / inject_Z (Z.of_nat b))%Q.

End Py.

(* ===================================================================== *)
(** * Python's [re]: the backtracking matcher on the syntax [app.py] uses  *)
(* ===================================================================== *)

(** The four patterns of [parse_quiz_for_display] are built from literal
    characters, the classes [\d] and [\s], bracket sets, the quantifiers
    [*], [+], [*?] and [+?] applied to one-character matchers, capturing
    groups and one optional non-capturing group.  The flag [re.DOTALL]
    only changes [.], which no pattern uses unescaped; [re.IGNORECASE]
    is the parameter [ic]. *)
Module Re.

(** A member of a bracket set. *)
Inductive item : Type :=
  | Chr (c : ascii)            (* a character *)
  | Range (lo hi : ascii)      (* lo-hi *)
  | Digit                      (* \d *)
  | Space.                     (* \s *)

(** A one-character matcher: [[items]] or, negated, [[^items]]. *)
Record cset : Type := CSet { negated : bool; items : list item }.

Inductive regex : Type :=
  | Eps
  | One (cs : cset)
  | Rep (cs : cset) (min : nat) (greedy : bool)
  | Seq (r1 r2 : regex)
  | Group (n : nat) (r : regex)
  | Opt (r : regex).

(** The characters of a range, in order. *)
Definition range_chars (lo hi : ascii) : list ascii :=
  List.map ascii_of_nat
    (List.seq (nat_of_ascii lo) (S (nat_of_ascii hi) - nat_of_ascii lo)).

(** With [re.IGNORECASE] the set is lowered when the pattern is compiled
    and the text character is lowered before the test. *)
Definition item_has (ic : bool) (ch : ascii) (it : item) : bool :=
  match it with
  | Chr c => Ascii.eqb ch (if ic then Py.lower_char c else c)
  | Range lo hi =>
      if ic
      then List.existsb (fun i => Ascii.eqb ch (Py.lower_char i))
             (range_chars lo hi)
      else ((N_of_ascii lo <=? N_of_ascii ch)
            && (N_of_ascii ch <=? N_of_ascii hi))%N
  | Digit => Py.isdigit ch
  | Space => Py.isspace ch
  end.

Definition in_set (ic : bool) (cs : cset) (ch : ascii) : bool :=
  let ch' := if ic then Py.lower_char ch else ch in
  xorb (negated cs) (List.existsb (item_has ic ch') (items cs)).

(** The captured groups: the latest binding of a number comes first. *)
Definition groups : Type := list (nat * string).

Fixpoint group (g : groups) (n : nat) : option string :=
  match g with
  | [] => None
  | (m, s) :: g' => if Nat.eqb m n then Some s else group g' n
  end.

(** An entry of a [findall] tuple: a group that took no part is [""]. *)
Definition group_str (g : groups) (n : nat) : string :=
  default EmptyString (group g n).

(** The part of [s] read when [rest] is what remains of it. *)
Definition consumed (s rest : string) : string :=
  Py.slice_to (String.length s - String.length rest) s.

Section Matcher.
Context {A : Type}.

(** [cs*] and [cs+]: as many characters as possible, giving back one
    at a time while the continuation fails. *)
Fixpoint rep_greedy (p : ascii -> bool) (min : nat) (s : string)
    (k : string -> option A) : option A :=
  let stop := match min with 0 => k s | S _ => None end in
  match s with
  | EmptyString => stop
  | String c s' =>
      if p c
      then match rep_greedy p (Nat.pred min) s' k with
           | Some r => Some r
           | None => stop
           end
      else stop
  end.

(** [cs*?] and [cs+?]: as few characters as possible, taking one more
    while the continuation fails. *)
Fixpoint rep_lazy (p : ascii -> bool) (min : nat) (s : string)
    (k : string -> option A) {struct s} : option A :=
  let more :=
    match s with
    | EmptyString => None
    | String c s' => if p c then rep_lazy p (Nat.pred min) s' k else None
    end in
  match min with
  | 0 => match k s with Some r => Some r | None => more end
  | S _ => more
  end.

(** [run ic r s g k]: match [r] at the head of [s], then the rest of
    the pattern [k]; the first success in backtracking order. *)
Fixpoint run (ic : bool) (r : regex) (s : string) (g : groups)
    (k : string -> groups -> option A) : option A :=
  match r with
  | Eps => k s g
  | One cs =>
      match s with
      | String c s' => if in_set ic cs c then k s' g else None
      | EmptyString => None
      end
  | Rep cs min greedy =>
      (if greedy then rep_greedy else rep_lazy)
        (in_set ic cs) min s (fun s' => k s' g)
  | Seq r1 r2 => run ic r1 s g (fun s' g' => run ic r2 s' g' k)
  | Group n r =>
      run ic r s g (fun s' g' => k s' ((n, consumed s s') :: g'))
  | Opt r =>
      match run ic r s g k with
      | Some x => Some x
      | None => k s g
      end
  end.
End Matcher.

(** A match of [r] starting at the head of [s]: what follows the match,
    and the groups. *)
Definition match_at (ic : bool) (r : regex) (s : string)
  : option (string * groups) :=
  run ic r s [] (fun rest g => Some (rest, g)).

(** [re.search(r, s)]: the match at the leftmost position that has one. *)
Fixpoint search (ic : bool) (r : regex) (s : string) : option groups :=
  match match_at ic r s with
  | Some (_, g) => Some g
  | None =>
      match s with
      | EmptyString => None
      | String _ s' => search ic r s'
      end
  end.

(** [re.findall(r, s)]: the matches from left to right, each search
    starting where the previous match ended.  [skip] counts the
    characters of the last match still to pass.  (The patterns here
    match no empty string, so the rule of [re] for an empty match is
    not involved.) *)
Fixpoint findall_from (ic : bool) (r : regex) (skip : nat) (s : string)
  : list groups :=
  match skip with
  | S skip' =>
      match s with
      | EmptyString => []
      | String _ s' => findall_from ic r skip' s'
      end
  | 0 =>
      match match_at ic r s with
      | Some (rest, g) =>
          g :: match s with
               | EmptyString => []
               | String _ s' =>
                   findall_from ic r
                     (String.length s - String.length rest - 1) s'
               end
      | None =>
          match s with
          | EmptyString => []
          | String _ s' => findall_from ic r 0 s'
          end
      end
  end.

Definition findall (ic : bool) (r : regex) (s : string) : list groups :=
  findall_from ic r 0 s.

(** Pattern syntax. *)
Definition lit (c : ascii) : regex := One (CSet false [Chr c]).

Fixpoint str (s : string) : regex :=
  match s with
  | EmptyString => Eps
  | String c s' => Seq (lit c) (str s')
  end.

Fixpoint seq (rs : list regex) : regex :=
  match rs with
  | [] => Eps
  | r :: rs' => Seq r (seq rs')
  end.

Definition digits1 : regex := Rep (CSet false [Digit]) 1 true.   (* \d+ *)
Definition spaces0 : regex := Rep (CSet false [Space]) 0 true.   (* \s* *)
Definition none_of (its : list item) : cset := CSet true its.    (* [^..] *)
Definition lazy1 (cs : cset) : regex := Rep cs 1 false.          (* cs+? *)
Definition greedy0 (cs : cset) : regex := Rep cs 0 true.         (* cs*  *)
Definition greedy1 (cs : cset) : regex := Rep cs 1 true.         (* cs+  *)

End Re.

(* ===================================================================== *)
(** * [app.py]: the quiz data, the parser and the scorer                  *)
(* ===================================================================== *)

Module App.
Import Re.

(** ** The quiz data *)

(** An entry of [quiz_data["mcq_questions"]]. *)
Record mcq : Type := Mcq {
  mcq_question : string;
  mcq_options : list string;
  mcq_correct : string
}.

(** An entry of [quiz_data["fill_blanks"]]. *)
Record blank : Type := Blank {
  blank_question : string;
  blank_answer : string
}.

(** A short-answer question. *)
Record short : Type := Short {
  short_question : string;
  short_expected : string
}.

(** [quiz_data["short_answer"]] starts as [""], and becomes one
    dictionary or a list of dictionaries. *)
Inductive short_field : Type :=
  | NoShort
  | OneShort (q : short)
  | ShortList (qs : list short).

Record quiz_data : Type := QuizData {
  mcq_questions : list mcq;
  fill_blanks : list blank;
  short_answer : short_field;
  raw_text : string
}.

(** Python's truth value of [quiz_data["short_answer"]]: an empty string
    and an empty list are false, a dictionary with keys is true. *)
Definition short_truthy (f : short_field) : bool :=
  match f with
  | NoShort => false
  | OneShort _ => true
  | ShortList qs => match qs with [] => false | _ => true end
  end.

(** The short-answer questions of a quiz, in order. *)
Definition short_items (f : short_field) : list short :=
  match f with
  | NoShort => []
  | OneShort q => [q]
  | ShortList qs => qs
  end.

(** ** The patterns of [parse_quiz_for_display] *)

Definition nl : ascii := ascii_of_nat 10.

(** [(\d+\.\s*[^X]+?)]: a number, a dot and the text up to the marker,
    inside group [n]. *)
Definition numbered (n : nat) (stop : list item) : regex :=
  Group n (seq [digits1; lit "."; spaces0; lazy1 (none_of stop)]).

(** [r'(\d+\.\s*[^A-D]+?)\s*A\)\s*([^B]+?)\s*B\)\s*([^C]+?)\s*C\)\s*([^D]+?)\s*D\)\s*([^C]+?)\s*Correct Answer:\s*([A-D])'] *)
Definition mcq_pattern : regex :=
  seq [ numbered 1 [Range "A" "D"];
        spaces0; str "A)"; spaces0; Group 2 (lazy1 (none_of [Chr "B"]));
        spaces0; str "B)"; spaces0; Group 3 (lazy1 (none_of [Chr "C"]));
        spaces0; str "C)"; spaces0; Group 4 (lazy1 (none_of [Chr "D"]));
        spaces0; str "D)"; spaces0; Group 5 (lazy1 (none_of [Chr "C"]));
        spaces0; str "Correct Answer:"; spaces0;
        Group 6 (One (CSet false [Range "A" "D"])) ].

(** The second pattern of the source is the same text. *)
Definition mcq_pattern_flexible : regex := mcq_pattern.

(** [r'(\d+\.\s*[^_]+?)\s*______\s*\[Hint[^]]*\]\s*Answer:\s*([^\n]+)'] *)
Definition blank_pattern : regex :=
  seq [ numbered 1 [Chr "_"];
        spaces0; str "______"; spaces0;
        str "[Hint"; greedy0 (none_of [Chr "]"]); lit "]";
        spaces0; str "Answer:"; spaces0;
        Group 2 (greedy1 (none_of [Chr nl])) ].

(** [r'(\d+\.\s*[^_]+?)\s*______\s*\.\s*Answer:\s*([^\n]+)'] *)
Definition blank_pattern_simple : regex :=
  seq [ numbered 1 [Chr "_"];
        spaces0; str "______"; spaces0; lit ".";
        spaces0; str "Answer:"; spaces0;
        Group 2 (greedy1 (none_of [Chr nl])) ].

(** [r'Short Answer Questions[^:]*:\s*(\d+\.\s*[^E]+?)Expected Answer:\s*([^\n]+)(?:\s*\d+\.\s*([^E]+?)Expected Answer:\s*([^\n]+))?'] *)
Definition short_pattern : regex :=
  seq [ str "Short Answer Questions"; greedy0 (none_of [Chr ":"]); lit ":";
        spaces0; numbered 1 [Chr "E"];
        str "Expected Answer:"; spaces0;
        Group 2 (greedy1 (none_of [Chr nl]));
        Opt (seq [ spaces0; digits1; lit "."; spaces0;
                   Group 3 (lazy1 (none_of [Chr "E"]));
                   str "Expected Answer:"; spaces0;
                   Group 4 (greedy1 (none_of [Chr nl])) ]) ].

(** ** [create_fallback_quiz_data] *)

Definition create_fallback_quiz_data : quiz_data :=
  {| mcq_questions :=
       [ {| mcq_question := "1. What is the main purpose of a CV?";
            mcq_options :=
              [ "To list personal hobbies";
                "To showcase work experience and qualifications";
                "To write a story";
                "To make friends" ];
            mcq_correct := "B" |};
         {| mcq_question := "2. What should be included in a professional CV?";
            mcq_options :=
              [ "Only personal information";
                "Work experience, education, and skills";
                "Only education";
                "Only skills" ];
            mcq_correct := "B" |};
         {| mcq_question := "3. What language was the CV written in?";
            mcq_options := [ "English"; "French"; "Dutch"; "German" ];
            mcq_correct := "C" |} ];
     fill_blanks :=
       [ {| blank_question := "1. A CV is also known as a ______.";
            blank_answer := "resume" |};
         {| blank_question :=
              "2. Blal Masroor worked as a kitchen ______ in restaurants.";
            blank_answer := "assistant" |} ];
     short_answer :=
       ShortList
         [ {| short_question :=
                "1. What type of work experience does Blal Masroor have?";
              short_expected :=
                "He has experience working in restaurants as a kitchen assistant, with certifications in culinary arts." |};
           {| short_question :=
                "2. What certifications does Blal Masroor have?";
              short_expected :=
                "He has certifications in chocolate making, praline making, bread baking, and pastry making from Centrum voor Volwassenenonderwijs Gent." |} ];
     raw_text := "Fallback quiz generated due to parsing issues" |}.

(** ** [parse_quiz_for_display] *)

(** The two passes over the multiple-choice questions: the second runs
    only when the first finds nothing, with [re.IGNORECASE]. *)
Definition mcq_matches (quiz_text : string) : list groups :=
  match findall false mcq_pattern quiz_text with
  | [] => findall true mcq_pattern_flexible quiz_text
  | ms => ms
  end.

(** The body of [for match in mcq_matches]. *)
Definition mcq_of_match (m : groups) : mcq :=
  {| mcq_question := Py.strip (group_str m 1);
     mcq_options := [ Py.strip (group_str m 2); Py.strip (group_str m 3);
                      Py.strip (group_str m 4); Py.strip (group_str m 5) ];
     mcq_correct := Py.strip (group_str m 6) |}.

Definition blank_matches (quiz_text : string) : list groups :=
  match findall false blank_pattern quiz_text with
  | [] => findall false blank_pattern_simple quiz_text
  | ms => ms
  end.

(** The body of [for match in blank_matches]. *)
Definition blank_of_match (m : groups) : blank :=
  {| blank_question := Py.strip (group_str m 1);
     blank_answer := Py.strip (group_str m 2) |}.

Definition short_match (quiz_text : string) : option groups :=
  search false short_pattern quiz_text.

(** [if short_match: if short_match.group(3): ... else: ...]; a group
    that is [None] or empty is false. *)
Definition short_of_match (sm : option groups) : short_field :=
  match sm with
  | None => NoShort
  | Some g =>
      match group g 3 with
      | Some (String _ _) =>
          ShortList
            [ {| short_question := Py.strip (group_str g 1);
                 short_expected := Py.strip (group_str g 2) |};
              {| short_question := Py.strip (group_str g 3);
                 short_expected := Py.strip (group_str g 4) |} ]
      | _ =>
          OneShort {| short_question := Py.strip (group_str g 1);
                      short_expected := Py.strip (group_str g 2) |}
      end
  end.

(** A [for] loop that appends one entry per match to a list. *)
Definition append_each {M T : Type} (f : M -> T) (ms : list M) (acc : list T)
  : list T :=
  fold_left (fun acc m => (acc ++ [f m])%list) ms acc.

(** The lists and the short-answer field before the fallback test. *)
Definition parsed (quiz_text : string) : quiz_data :=
  {| mcq_questions := append_each mcq_of_match (mcq_matches quiz_text) [];
     fill_blanks := append_each blank_of_match (blank_matches quiz_text) [];
     short_answer := short_of_match (short_match quiz_text);
     raw_text := quiz_text |}.

Definition is_nil {T : Type} (l : list T) : bool :=
  match l with [] => true | _ => false end.

(** No call in the [try] block raises on a string, so the [except]
    branch, which also returns the fallback, is never taken. *)
Definition parse_quiz_for_display (quiz_text : string) : quiz_data :=
  let quiz_data := parsed quiz_text in
  if is_nil (mcq_questions quiz_data) && is_nil (fill_blanks quiz_data)
     && negb (short_truthy (short_answer quiz_data))
  then create_fallback_quiz_data
  else quiz_data.

(** ** The scoring part of [display_quiz_results] *)

(** [st.session_state]: the answers typed so far, under the keys
    [mcq_<i>], [blank_<i>], [short_answer_<i>] and [short_answer], and
    the other entries that the results page reads or writes. *)
Record session_state : Type := SessionState {
  quiz_answers : gmap string string;
  quiz_submitted : bool;
  quiz_saved_to_memory : bool;
  current_topic : string
}.

(** The local variables [total_questions], [correct_answers] and
    [weak_areas]. *)
Record tally : Type := Tally {
  total_questions : nat;
  correct_answers : nat;
  weak_areas : list string
}.

(** [enumerate(l)] *)
Fixpoint enumerate_from {T : Type} (i : nat) (l : list T) : list (nat * T) :=
  match l with
  | [] => []
  | x :: l' => (i, x) :: enumerate_from (S i) l'
  end.

Definition enumerate {T : Type} (l : list T) : list (nat * T) :=
  enumerate_from 0 l.

(** [f"Question {n}: {question[:50]}..."] *)
Definition weak_area (n : nat) (question : string) : string :=
  "Question " ++ Py.str_of_nat n ++ ": " ++ Py.slice_to 50 question ++ "...".

(** [correct_answers += 1] and [weak_areas.append(area)], after
    [total_questions += 1]. *)
Definition mark (passed : bool) (area : string) (t : tally) : tally :=
  if passed
  then {| total_questions := total_questions t;
          correct_answers := S (correct_answers t);
          weak_areas := weak_areas t |}
  else {| total_questions := total_questions t;
          correct_answers := correct_answers t;
          weak_areas := (weak_areas t ++ [area])%list |}.

Definition count_question (t : tally) : tally :=
  {| total_questions := S (total_questions t);
     correct_answers := correct_answers t;
     weak_areas := weak_areas t |}.

(** [user_answer == mcq["correct"]] *)
Definition mcq_passes (session : session_state) (i : nat) (q : mcq) : bool :=
  let user_answer := Py.get (quiz_answers session) ("mcq_" ++ Py.str_of_nat i) in
  String.eqb user_answer (mcq_correct q).

(** The body of [for i, mcq in enumerate(quiz_data["mcq_questions"])]. *)
Definition mcq_step (session : session_state) (t : tally) (iq : nat * mcq)
  : tally :=
  let t := count_question t in
  mark (mcq_passes session (fst iq) (snd iq))
       (weak_area (fst iq + 1) (mcq_question (snd iq))) t.

(** [user_answer in correct_answer or correct_answer in user_answer],
    both lowered. *)
Definition blank_passes (session : session_state) (i : nat) (q : blank)
  : bool :=
  let user_answer :=
    Py.lower (Py.get (quiz_answers session) ("blank_" ++ Py.str_of_nat i)) in
  let correct_answer := Py.lower (blank_answer q) in
  Py.contains user_answer correct_answer
  || Py.contains correct_answer user_answer.

(** The body of [for i, blank in enumerate(quiz_data["fill_blanks"])];
    [n_mcq] is [len(quiz_data['mcq_questions'])]. *)
Definition blank_step (session : session_state) (n_mcq : nat) (t : tally)
    (iq : nat * blank) : tally :=
  let t := count_question t in
  mark (blank_passes session (fst iq) (snd iq))
       (weak_area (n_mcq + fst iq + 1) (blank_question (snd iq))) t.

(** [sum(1 for keyword in expected_keywords if keyword in user_answer)] *)
Definition keyword_matches (expected_keywords : list string)
    (user_answer : string) : nat :=
  List.length
    (List.filter (fun keyword => Py.contains keyword user_answer)
       expected_keywords).

(** [keyword_matches >= len(expected_keywords) * 0.5]: an [int] is
    compared with a [float] by value, and half of a length is an exact
    float, so the test is the comparison of the two rationals. *)
Definition short_passes (session : session_state) (key : string) (q : short)
  : bool :=
  let user_answer := Py.lower (Py.get (quiz_answers session) key) in
  let expected_keywords := Py.split (Py.lower (short_expected q)) in
  Qle_bool
    (inject_Z (Z.of_nat (List.length expected_keywords)) * (1 # 2))
    (inject_Z (Z.of_nat (keyword_matches expected_keywords user_answer))).

(** The body of the loop over a list of short-answer questions, and the
    branch for a single one; both name the question by
    [total_questions]. *)
Definition short_step_at (session : session_state) (key : string) (t : tally)
    (q : short) : tally :=
  let t := count_question t in
  mark (short_passes session key q)
       (weak_area (total_questions t) (short_question q)) t.

Definition short_step (session : session_state) (t : tally)
    (iq : nat * short) : tally :=
  short_step_at session ("short_answer_" ++ Py.str_of_nat (fst iq)) t (snd iq).

Definition score_short (session : session_state) (f : short_field)
    (t : tally) : tally :=
  if short_truthy f
  then match f with
       | ShortList qs => fold_left (short_step session) (enumerate qs) t
       | OneShort q => short_step_at session "short_answer" t q
       | NoShort => t
       end
  else t.

(** The three loops, from the initial [0], [0], [[]]. *)
Definition score_tally (session : session_state) (quiz : quiz_data) : tally :=
  let t := {| total_questions := 0; correct_answers := 0; weak_areas := [] |} in
  let t := fold_left (mcq_step session) (enumerate (mcq_questions quiz)) t in
  let t := fold_left (blank_step session (List.length (mcq_questions quiz)))
             (enumerate (fill_blanks quiz)) t in
  score_short session (short_answer quiz) t.

(** What the results page shows and [add_quiz_result] receives. *)
Record score_report : Type := ScoreReport {
  correct : nat;
  total : nat;
  percentage : Q;
  missed_items : list string
}.

(** [(correct_answers / total_questions * 100) if total_questions > 0
    else 0]: the division is reached only under the guard. *)
Definition percentage_of (correct_answers total_questions : nat) : option Q :=
  if Nat.ltb 0 total_questions
  then match Py.truediv correct_answers total_questions with
       | Some q => Some (q * 100)%Q
       | None => None
       end
  else Some 0%Q.

(** Lines 523 to 578 of [display_quiz_results]; [None] is an exception. *)
Definition display_quiz_results (session : session_state) (quiz : quiz_data)
  : option score_report :=
  let t := score_tally session quiz in
  match percentage_of (correct_answers t) (total_questions t) with
  | Some p =>
      Some {| correct := correct_answers t;
              total := total_questions t;
              percentage := p;
              missed_items := weak_areas t |}
  | None => None
  end.

End App.


(* ===================================================================== *)
(** * The properties, stated on lists of graded items                     *)
(* ===================================================================== *)

Module Spec.
Import Re App.

(** [sub] occurs in [s]: some text before it, some text after it. *)
Definition occurs_in (sub s : string) : Prop :=
  exists before after : string, s = before ++ sub ++ after.

(** A graded item: whether it passed its rule, and the line it adds to
    the weak areas when it did not. *)
Definition graded : Type := (bool * string)%type.

Definition passed (gs : list graded) : nat :=
  List.length (List.filter fst gs).

Definition missed (gs : list graded) : list string :=
  List.map snd (List.filter (fun g => negb (fst g)) gs).

(** A tally after the items [gs] have been graded. *)
Definition tally_add (t : tally) (gs : list graded) : tally :=
  {| total_questions := total_questions t + List.length gs;
     correct_answers := correct_answers t + passed gs;
     weak_areas := (weak_areas t ++ missed gs)%list |}.

(** The shape shared by the bodies of the scoring loops: the rule [p]
    reads the index and the question, the weak-area line [d] may also
    read the count of questions so far. *)
Definition loop_step {T : Type} (p : nat -> T -> bool)
    (d : nat -> nat -> T -> string) (t : tally) (iq : nat * T) : tally :=
  mark (p (fst iq) (snd iq)) (d (total_questions t) (fst iq) (snd iq))
       (count_question t).

Fixpoint loop_grades {T : Type} (p : nat -> T -> bool)
    (d : nat -> nat -> T -> string) (n i : nat) (l : list T) : list graded :=
  match l with
  | [] => []
  | x :: l' => (p i x, d n i x) :: loop_grades p d (S n) (S i) l'
  end.

(** The multiple-choice questions of a quiz, graded, numbered from 1. *)
Definition graded_mcq (session : session_state) (quiz : quiz_data)
  : list graded :=
  List.map
    (fun iq => (mcq_passes session (fst iq) (snd iq),
                weak_area (fst iq + 1) (mcq_question (snd iq))))
    (enumerate (mcq_questions quiz)).

(** The blanks, numbered after the multiple-choice questions. *)
Definition graded_blank (session : session_state) (quiz : quiz_data)
  : list graded :=
  List.map
    (fun iq => (blank_passes session (fst iq) (snd iq),
                weak_area (List.length (mcq_questions quiz) + fst iq + 1)
                  (blank_question (snd iq))))
    (enumerate (fill_blanks quiz)).

(** The short-answer questions with the key of their answer. *)
Definition short_keyed (f : short_field) : list (string * short) :=
  match f with
  | NoShort => []
  | OneShort q => [("short_answer", q)]
  | ShortList qs =>
      List.map (fun iq => ("short_answer_" ++ Py.str_of_nat (fst iq), snd iq))
        (enumerate qs)
  end.

(** The short answers, numbered after the blanks. *)
Definition graded_short (session : session_state) (quiz : quiz_data)
  : list graded :=
  List.map
    (fun jkq => (short_passes session (fst (snd jkq)) (snd (snd jkq)),
                 weak_area (List.length (mcq_questions quiz)
                            + List.length (fill_blanks quiz) + fst jkq + 1)
                   (short_question (snd (snd jkq)))))
    (enumerate (short_keyed (short_answer quiz))).

(** All the items of a quiz in item order. *)
Definition graded_items (session : session_state) (quiz : quiz_data)
  : list graded :=
  (graded_mcq session quiz ++ graded_blank session quiz
   ++ graded_short session quiz)%list.

(** The number of questions of a quiz, answered or not. *)
Definition item_count (quiz : quiz_data) : nat :=
  List.length (mcq_questions quiz) + List.length (fill_blanks quiz)
  + List.length (short_items (short_answer quiz)).



(** The keys under which the answers of a quiz are looked up. *)
Definition answer_keys (quiz : quiz_data) : list string :=
  (List.map (fun iq => ("mcq_" ++ Py.str_of_nat (fst iq))%string)
     (enumerate (mcq_questions quiz))
   ++ List.map (fun iq => ("blank_" ++ Py.str_of_nat (fst iq))%string)
        (enumerate (fill_blanks quiz))
   ++ List.map fst (short_keyed (short_answer quiz)))%list.

(** What one pass through a loop body does to the tally of an item
    graded correct, and of an item graded incorrect. *)
Definition graded_correct (t t' : tally) : Prop :=
  total_questions t' = S (total_questions t)
  /\ correct_answers t' = S (correct_answers t)
  /\ weak_areas t' = weak_areas t.


(** The initial [0], [0], [[]]. *)
Definition tally0 : tally :=
  {| total_questions := 0; correct_answers := 0; weak_areas := [] |}.

(** Sample texts and sessions. *)
Definition empty_session : session_state :=
  {| quiz_answers := ∅; quiz_submitted := true;
     quiz_saved_to_memory := false; current_topic := "" |}.

Definition session_of (answers : list (string * string)) : session_state :=
  {| quiz_answers := list_to_map answers; quiz_submitted := true;
     quiz_saved_to_memory := false; current_topic := "" |}.

(** A section with three short-answer entries, one per line. *)
Definition three_short_answers : string :=
  "Short Answer Questions (3 questions):
1. Say why?
Expected Answer: it is so
2. Say how?
Expected Answer: like this
3. Say when?
Expected Answer: now
".

End Spec.

(* ===================================================================== *)
(** * More of Python's lists and strings                                  *)
(* ===================================================================== *)

Module PyList.

(** [x in l] for a list of strings. *)
Definition mem (x : string) (l : list string) : bool :=
  List.existsb (String.eqb x) l.

(** [l[-n:]] for a positive literal [n]: the last [n] entries, all of
    them when there are fewer. *)
Definition last_n {T : Type} (n : nat) (l : list T) : list T :=
  List.skipn (List.length l - n) l.

(** [sep.join(l)] *)
Fixpoint join (sep : string) (l : list string) : string :=
  match l with
  | [] => EmptyString
  | [x] => x
  | x :: l' => x ++ sep ++ join sep l'
  end.

(** [sum(l)] for numbers kept as rationals. *)
Definition qsum (l : list Q) : Q := List.fold_left Qplus l 0%Q.

End PyList.

(* ===================================================================== *)
(** * [memory.py]: the learning progress of [SmartStudyMemory]            *)
(* ===================================================================== *)

(** The conversation buffer of LangChain is a collaborator and is not
    modelled; [now] stands for
    [st.session_state.get("current_time", "Unknown")]. *)
Module Memory.

(** An entry of [learning_progress["topics_explained"]]. *)
Record topic_entry : Type := TopicEntry {
  te_topic : string;
  te_explanation : string;
  te_timestamp : string
}.

(** An entry of [learning_progress["quiz_scores"]].  The percentage is
    the exact rational that Python rounds to a float. *)
Record quiz_result : Type := QuizResult {
  qr_topic : string;
  qr_score : nat;
  qr_total_questions : nat;
  qr_percentage : Q;
  qr_weak_areas : list string;
  qr_timestamp : string
}.

(** An entry of [learning_progress["revision_suggestions"]]. *)
Record revision : Type := Revision {
  rv_suggestion : string;
  rv_timestamp : string
}.

(** [self.learning_progress] *)
Record learning_progress : Type := LearningProgress {
  topics_explained : list topic_entry;
  quiz_scores : list quiz_result;
  lp_weak_areas : list string;
  strengths : list string;
  revision_suggestions : list revision
}.

(** The dictionary of [__init__] and of [reset_progress]. *)
Definition initial_progress : learning_progress :=
  {| topics_explained := []; quiz_scores := []; lp_weak_areas := [];
     strengths := []; revision_suggestions := [] |}.

(** [t["topic"].lower()] *)
Definition topic_key (t : topic_entry) : string := Py.lower (te_topic t).

(** The [for ... break] loop of [add_topic_explanation]: the first
    entry whose lowered topic is [key] gets the new explanation and
    time. *)
Fixpoint update_first (key explanation now : string) (l : list topic_entry)
  : list topic_entry :=
  match l with
  | [] => []
  | t :: l' =>
      if String.eqb (topic_key t) key
      then {| te_topic := te_topic t; te_explanation := explanation;
              te_timestamp := now |} :: l'
      else t :: update_first key explanation now l'
  end.

(** [add_topic_explanation(topic, explanation)] *)
Definition add_topic_explanation (now topic explanation : string)
    (lp : learning_progress) : learning_progress :=
  let existing_topics := List.map topic_key (topics_explained lp) in
  let topics :=
    if negb (PyList.mem (Py.lower topic) existing_topics)
    then (topics_explained lp
          ++ [ {| te_topic := topic; te_explanation := explanation;
                  te_timestamp := now |} ])%list
    else update_first (Py.lower topic) explanation now (topics_explained lp) in
  {| topics_explained := topics;
     quiz_scores := quiz_scores lp;
     lp_weak_areas := lp_weak_areas lp;
     strengths := strengths lp;
     revision_suggestions := revision_suggestions lp |}.

(** [for area in weak_areas: if area not in stored: stored.append(area)] *)
Definition add_weak_areas (areas stored : list string) : list string :=
  List.fold_left
    (fun stored area =>
       if negb (PyList.mem area stored) then (stored ++ [area])%list
       else stored)
    areas stored.

(** [add_quiz_result(topic, score, total_questions, weak_areas)]; the
    division comes first, so [ZeroDivisionError] ([None]) leaves the
    progress as it was. *)
Definition add_quiz_result (now topic : string) (score total_questions : nat)
    (weak_areas : list string) (lp : learning_progress)
  : option learning_progress :=
  match Py.truediv score total_questions with
  | None => None
  | Some q =>
      let quiz_result :=
        {| qr_topic := topic; qr_score := score;
           qr_total_questions := total_questions;
           qr_percentage := (q * 100)%Q;
           qr_weak_areas := weak_areas; qr_timestamp := now |} in
      Some {| topics_explained := topics_explained lp;
              quiz_scores := (quiz_scores lp ++ [quiz_result])%list;
              lp_weak_areas := add_weak_areas weak_areas (lp_weak_areas lp);
              strengths := strengths lp;
              revision_suggestions := revision_suggestions lp |}
  end.

(** [add_revision_suggestion(suggestion)] *)
Definition add_revision_suggestion (now suggestion : string)
    (lp : learning_progress) : learning_progress :=
  {| topics_explained := topics_explained lp;
     quiz_scores := quiz_scores lp;
     lp_weak_areas := lp_weak_areas lp;
     strengths := strengths lp;
     revision_suggestions :=
       (revision_suggestions lp
        ++ [ {| rv_suggestion := suggestion; rv_timestamp := now |} ])%list |}.

(** The loop [if key not in seen: unique.append(x); seen.add(key)], with
    its two variables. *)
Definition unique_step {T : Type} (key : T -> string)
    (st : list T * gset string) (x : T) : list T * gset string :=
  if bool_decide (key x ∈ snd st) then st
  else ((fst st ++ [x])%list, snd st ∪ {[ key x ]}).

Definition unique_by {T : Type} (key : T -> string) (l : list T) : list T :=
  fst (List.fold_left (unique_step key) l ([], ∅)).

(** The dictionary that [get_learning_summary] returns.  [avg_score] is
    the local variable of that name; the dictionary holds
    [round(avg_score, 1)]. *)
Record learning_summary : Type := LearningSummary {
  total_topics_studied : nat;
  total_quizzes_taken : nat;
  avg_score : Q;
  summary_weak_areas : list string;
  recent_topics : list string;
  recent_scores : list Q
}.

(** [get_learning_summary()]: the progress with its topics made unique,
    and the summary. *)
Definition get_learning_summary (lp : learning_progress)
  : learning_progress * learning_summary :=
  let unique_topics := unique_by topic_key (topics_explained lp) in
  let total_quizzes := List.length (quiz_scores lp) in
  let avg :=
    if Nat.ltb 0 total_quizzes
    then (PyList.qsum (List.map qr_percentage (quiz_scores lp))
          / inject_Z (Z.of_nat total_quizzes))%Q
    else 0%Q in
  ({| topics_explained := unique_topics;
      quiz_scores := quiz_scores lp;
      lp_weak_areas := lp_weak_areas lp;
      strengths := strengths lp;
      revision_suggestions := revision_suggestions lp |},
   {| total_topics_studied := List.length unique_topics;
      total_quizzes_taken := total_quizzes;
      avg_score := avg;
      summary_weak_areas := lp_weak_areas lp;
      recent_topics := List.map te_topic (PyList.last_n 5 unique_topics);
      recent_scores :=
        List.map qr_percentage (PyList.last_n 5 (quiz_scores lp)) |}).

(** [quiz["topic"].lower()] *)
Definition quiz_key (q : quiz_result) : string := Py.lower (qr_topic q).

(** [clear_duplicates()]: the first entry of each topic, and the latest
    result of each quiz topic, read from the end and put back in
    order. *)
Definition clear_duplicates (lp : learning_progress) : learning_progress :=
  {| topics_explained := unique_by topic_key (topics_explained lp);
     quiz_scores :=
       List.rev (unique_by quiz_key (List.rev (quiz_scores lp)));
     lp_weak_areas := lp_weak_areas lp;
     strengths := strengths lp;
     revision_suggestions := revision_suggestions lp |}.

(** [_generate_learning_summary()] *)
Definition generate_learning_summary (lp : learning_progress) : string :=
  match topics_explained lp with
  | [] =>
      "No learning activity yet. Start by asking about a topic or uploading a document!"
  | _ =>
      let summary :=
        "Learning Progress: Studied "
        ++ Py.str_of_nat (List.length (topics_explained lp))
        ++ " topics, took "
        ++ Py.str_of_nat (List.length (quiz_scores lp)) ++ " quizzes." in
      match lp_weak_areas lp with
      | [] => summary
      | _ =>
          summary ++ " Areas to focus on: "
          ++ PyList.join ", " (List.firstn 3 (lp_weak_areas lp))
      end
  end.

(** The first entry of a topic, whatever the case of its letters. *)
Definition find_topic (topic : string) (l : list topic_entry)
  : option topic_entry :=
  List.find (fun t => String.eqb (topic_key t) (Py.lower topic)) l.

(** The latest result of a quiz topic. *)
Definition latest_result (topic : string) (l : list quiz_result)
  : option quiz_result :=
  List.find (fun q => String.eqb (quiz_key q) (Py.lower topic)) (List.rev l).

(** The save step at the end of [display_quiz_results]:
    [if "chains" in st.session_state and not
    st.session_state.get("quiz_saved_to_memory", False)]; [has_chains]
    is the first test.  [None] is the exception of [add_quiz_result]. *)
Definition save_quiz_results (now : string) (has_chains : bool)
    (session : App.session_state) (correct_answers total_questions : nat)
    (weak_areas : list string) (lp : learning_progress)
  : option (App.session_state * learning_progress) :=
  if has_chains && negb (App.quiz_saved_to_memory session)
  then match add_quiz_result now (App.current_topic session) correct_answers
               total_questions weak_areas lp with
       | Some lp' =>
           Some ({| App.quiz_answers := App.quiz_answers session;
                    App.quiz_submitted := App.quiz_submitted session;
                    App.quiz_saved_to_memory := true;
                    App.current_topic := App.current_topic session |}, lp')
       | None => None
       end
  else Some (session, lp).

End Memory.

(** The loop of [unique_by] as a recursive function of the keys seen so
    far, to state what the loop keeps. *)
Module MemorySpec.

Fixpoint dedupe {T : Type} (key : T -> string) (seen : gset string)
    (l : list T) : list T :=
  match l with
  | [] => []
  | x :: l' =>
      if bool_decide (key x ∈ seen) then dedupe key seen l'
      else x :: dedupe key (seen ∪ {[ key x ]}) l'
  end.

(** The entries whose key is [k]. *)
Definition has_key {T : Type} (key : T -> string) (k : string) (x : T)
  : bool :=
  String.eqb (key x) k.

End MemorySpec.

(* ===================================================================== *)
(** * [app.py]: collecting the answers and reviewing the wrong ones       *)
(* ===================================================================== *)

(** The Streamlit widgets are collaborators: a run of the page reads
    from them the option selected by each radio button and the text of
    each input, by widget key. *)
Module Page.
Import App.

Record widgets : Type := Widgets {
  radio_index : string -> nat;     (* the option selected, by position *)
  text_input : string -> string;   (* the text of an [st.text_input] *)
  text_area : string -> string     (* the text of an [st.text_area] *)
}.

(** [chr(n)], for a code point of the model. *)
Definition chr (n : nat) : ascii := ascii_of_nat n.

(** [[f"{chr(65+j)}) {option}" for j, option in enumerate(options)]] *)
Definition radio_options (options : list string) : list string :=
  List.map
    (fun jo => String (chr (65 + fst jo)) (") " ++ snd jo))
    (enumerate options).

(** [st.radio(..., options, key=key)]: the selected option, [None] when
    there is none. *)
Definition radio (w : widgets) (key : string) (options : list string)
  : option string :=
  List.nth_error options (radio_index w key).

(** [s[0]] of a string that is not empty. *)
Definition first_char (s : string) : string :=
  match s with
  | EmptyString => EmptyString
  | String c _ => String c EmptyString
  end.

(** Python's truth value of a string. *)
Definition truthy (s : string) : bool :=
  match s with EmptyString => false | _ => true end.

(** The body of the loop over the multiple-choice questions:
    [if selected: quiz_answers[f"mcq_{i}"] = selected[0]]. *)
Definition collect_mcq (w : widgets) (answers : gmap string string)
    (iq : nat * mcq) : gmap string string :=
  let key := "mcq_" ++ Py.str_of_nat (fst iq) in
  match radio w key (radio_options (mcq_options (snd iq))) with
  | Some selected =>
      if truthy selected then <[ key := first_char selected ]> answers
      else answers
  | None => answers
  end.

(** [if answer: quiz_answers[key] = answer.strip()] *)
Definition store_text (key answer : string) (answers : gmap string string)
  : gmap string string :=
  if truthy answer then <[ key := Py.strip answer ]> answers else answers.

Definition collect_blank (w : widgets) (answers : gmap string string)
    (iq : nat * blank) : gmap string string :=
  let key := "blank_" ++ Py.str_of_nat (fst iq) in
  store_text key (text_input w key) answers.

Definition collect_short (w : widgets) (answers : gmap string string)
    (iq : nat * short) : gmap string string :=
  let key := "short_answer_" ++ Py.str_of_nat (fst iq) in
  store_text key (text_area w key) answers.

(** The three parts of [display_quiz_with_answers] that fill
    [st.session_state.quiz_answers]. *)
Definition collect_answers (w : widgets) (quiz : quiz_data)
    (answers : gmap string string) : gmap string string :=
  let answers :=
    fold_left (collect_mcq w) (enumerate (mcq_questions quiz)) answers in
  let answers :=
    fold_left (collect_blank w) (enumerate (fill_blanks quiz)) answers in
  if short_truthy (short_answer quiz)
  then match short_answer quiz with
       | ShortList qs => fold_left (collect_short w) (enumerate qs) answers
       | OneShort _ =>
           store_text "short_answer" (text_area w "short_answer") answers
       | NoShort => answers
       end
  else answers.

(** The submit button: [if len(st.session_state.quiz_answers) > 0:
    st.session_state.quiz_submitted = True]. *)
Definition submit (session : session_state) : session_state :=
  if Nat.ltb 0 (size (quiz_answers session))
  then {| quiz_answers := quiz_answers session;
          quiz_submitted := true;
          quiz_saved_to_memory := quiz_saved_to_memory session;
          current_topic := current_topic session |}
  else session.

(** A block of the section "Correct Answers": the number and the text
    of the question, the answer shown as the user's, and the right
    one. *)
Record review_entry : Type := ReviewEntry {
  re_number : nat;
  re_question : string;
  re_your_answer : string;
  re_correct_answer : string
}.

(** [d.get(key, 'No answer')] *)
Definition get_or_no_answer (d : gmap string string) (key : string) : string :=
  default "No answer" (d !! key).

(** [a < b] on rationals. *)
Definition Qlt_bool (a b : Q) : bool :=
  (Qnum a * QDen b <? Qnum b * QDen a)%Z.

Definition review_mcq (session : session_state) (iq : nat * mcq)
  : list review_entry :=
  let user_answer :=
    Py.get (quiz_answers session) ("mcq_" ++ Py.str_of_nat (fst iq)) in
  if negb (String.eqb user_answer (mcq_correct (snd iq)))
  then [ {| re_number := fst iq + 1;
            re_question := mcq_question (snd iq);
            re_your_answer := user_answer;
            re_correct_answer := mcq_correct (snd iq) |} ]
  else [].

Definition review_blank (session : session_state) (n_mcq : nat)
    (iq : nat * blank) : list review_entry :=
  let key := "blank_" ++ Py.str_of_nat (fst iq) in
  let user_answer := Py.lower (Py.get (quiz_answers session) key) in
  let correct_answer := Py.lower (blank_answer (snd iq)) in
  if negb (Py.contains user_answer correct_answer)
     && negb (Py.contains correct_answer user_answer)
  then [ {| re_number := n_mcq + fst iq + 1;
            re_question := blank_question (snd iq);
            re_your_answer := get_or_no_answer (quiz_answers session) key;
            re_correct_answer := blank_answer (snd iq) |} ]
  else [].

(** The test [keyword_matches < len(expected_keywords) * 0.5] and the
    block it guards, for the question numbered [number]. *)
Definition review_short_at (session : session_state) (key : string)
    (number : nat) (q : short) : list review_entry :=
  let user_answer := Py.lower (Py.get (quiz_answers session) key) in
  let expected_keywords := Py.split (Py.lower (short_expected q)) in
  if Qlt_bool
       (inject_Z (Z.of_nat (keyword_matches expected_keywords user_answer)))
       (inject_Z (Z.of_nat (List.length expected_keywords)) * (1 # 2))
  then [ {| re_number := number;
            re_question := short_question q;
            re_your_answer := get_or_no_answer (quiz_answers session) key;
            re_correct_answer := short_expected q |} ]
  else [].

Definition review_short (session : session_state) (n_before : nat)
    (iq : nat * short) : list review_entry :=
  review_short_at session ("short_answer_" ++ Py.str_of_nat (fst iq))
    (n_before + fst iq + 1) (snd iq).

(** The section shown under [if weak_areas:], lines 598 to 647 of
    [display_quiz_results]; [total_questions] and [weak_areas] are the
    variables computed by the scoring part. *)
Definition review (session : session_state) (quiz : quiz_data)
    (total_questions : nat) (weak_areas : list string) : list review_entry :=
  match weak_areas with
  | [] => []
  | _ =>
      let n_mcq := List.length (mcq_questions quiz) in
      let n_blank := List.length (fill_blanks quiz) in
      (List.flat_map (review_mcq session) (enumerate (mcq_questions quiz))
       ++ List.flat_map (review_blank session n_mcq)
            (enumerate (fill_blanks quiz))
       ++ (if short_truthy (short_answer quiz)
           then match short_answer quiz with
                | ShortList qs =>
                    List.flat_map (review_short session (n_mcq + n_blank))
                      (enumerate qs)
                | OneShort q =>
                    review_short_at session "short_answer" total_questions q
                | NoShort => []
                end
           else []))%list
  end.

(** The heading that the scoring part writes for a reviewed question. *)
Definition review_area (e : review_entry) : string :=
  weak_area (re_number e) (re_question e).

End Page.

(** The shape shared by the loops of [collect_answers]: an optional
    value is stored under the key of the position. *)
Module PageSpec.
Import App.

Definition store_opt (key : string) (value : option string)
    (answers : gmap string string) : gmap string string :=
  match value with
  | Some v => <[ key := v ]> answers
  | None => answers
  end.

Definition store_loop {T : Type} (keyf : nat -> string)
    (val : nat -> T -> option string) (i0 : nat) (l : list T)
    (answers : gmap string string) : gmap string string :=
  fold_left
    (fun d iq => store_opt (keyf (fst iq)) (val (fst iq) (snd iq)) d)
    (enumerate_from i0 l) answers.

(** What the radio button of a question gives to store. *)
Definition mcq_value (w : Page.widgets) (i : nat) (q : mcq) : option string :=
  match Page.radio w ("mcq_" ++ Py.str_of_nat i)
          (Page.radio_options (mcq_options q)) with
  | Some selected =>
      if Page.truthy selected then Some (Page.first_char selected) else None
  | None => None
  end.

(** What a text widget gives to store. *)
Definition text_value (answer : string) : option string :=
  if Page.truthy answer then Some (Py.strip answer) else None.

(** A session with other answers. *)
Definition with_answers (session : session_state)
    (answers : gmap string string) : session_state :=
  {| quiz_answers := answers;
     quiz_submitted := quiz_submitted session;
     quiz_saved_to_memory := quiz_saved_to_memory session;
     current_topic := current_topic session |}.

End PageSpec.

(* ===================================================================== *)
(** * [utils.py]: [extract_key_content]                                   *)
(* ===================================================================== *)

Module Utils.

(** [s[n:]] for a position [n] from the start. *)
Fixpoint drop (n : nat) (s : string) : string :=
  match n, s with
  | S n', String _ s' => drop n' s'
  | _, _ => s
  end.

(** [s[:k]] for an integer [k]: a negative [k] counts from the end, and
    a position before the start is the start. *)
Definition slice_upto (k : Z) (s : string) : string :=
  if (0 <=? k)%Z then Py.slice_to (Z.to_nat k) s
  else Py.slice_to (String.length s - Z.to_nat (- k)) s.

(** [s[k:]] for an integer [k], with the same rule. *)
Definition slice_from (k : Z) (s : string) : string :=
  if (0 <=? k)%Z then drop (Z.to_nat k) s
  else drop (String.length s - Z.to_nat (- k)) s.

(** ["\n\n... [Content truncated for processing] ...\n\n"] *)
Definition truncation_mark : string :=
  "

... [Content truncated for processing] ...

".

(** [extract_key_content(text, max_length)]; [//] rounds down. *)
Definition extract_key_content (text : string) (max_length : Z) : string :=
  if (Z.of_nat (String.length text) <=? max_length)%Z then text
  else
    let half_length := (max_length / 2)%Z in
    slice_upto half_length text ++ truncation_mark
    ++ slice_from (- half_length) text.

(** The default [max_length=2000]. *)
Definition default_max_length : Z := 2000.

End Utils.

(* ===================================================================== *)
(** * What a pattern matches                                              *)
(* ===================================================================== *)

(** The strings that a pattern can match, to state what the groups of a
    match hold. *)
Module MatchSpec.
Import Re.

(** Every character of [s] passes the test [p]. *)
Fixpoint all_chars (p : ascii -> bool) (s : string) : bool :=
  match s with
  | EmptyString => true
  | String c s' => p c && all_chars p s'
  end.

Inductive matches (ic : bool) : regex -> string -> Prop :=
  | m_eps : matches ic Eps EmptyString
  | m_one (cs : cset) (c : ascii) :
      in_set ic cs c = true -> matches ic (One cs) (String c EmptyString)
  | m_rep (cs : cset) (min : nat) (greedy : bool) (w : string) :
      all_chars (in_set ic cs) w = true ->
      min <= String.length w ->
      matches ic (Rep cs min greedy) w
  | m_seq (r1 r2 : regex) (w1 w2 : string) :
      matches ic r1 w1 -> matches ic r2 w2 ->
      matches ic (Seq r1 r2) (w1 ++ w2)
  | m_group (n : nat) (r : regex) (w : string) :
      matches ic r w -> matches ic (Group n r) w
  | m_opt_some (r : regex) (w : string) :
      matches ic r w -> matches ic (Opt r) w
  | m_opt_none (r : regex) : matches ic (Opt r) EmptyString.

(** The pattern inside the group numbered [n]. *)
Fixpoint group_body (r : regex) (n : nat) : option regex :=
  match r with
  | Group m r' => if Nat.eqb m n then Some r' else group_body r' n
  | Seq r1 r2 =>
      match group_body r1 n with
      | Some b => Some b
      | None => group_body r2 n
      end
  | Opt r' => group_body r' n
  | _ => None
  end.

(** A property [P] of the captures holds of whatever a group of [r]
    can match. *)
Fixpoint captures_ok (P : nat -> string -> Prop) (ic : bool) (r : regex)
  : Prop :=
  match r with
  | Group n r' =>
      (forall w, matches ic r' w -> P n w) /\ captures_ok P ic r'
  | Seq r1 r2 => captures_ok P ic r1 /\ captures_ok P ic r2
  | Opt r' => captures_ok P ic r'
  | _ => True
  end.

(** The captures of [g] are matches of the bodies of their groups in
    the pattern [r]. *)
Definition captured_by (ic : bool) (r : regex) (n : nat) (w : string) : Prop :=
  exists body, group_body r n = Some body /\ matches ic body w.

(** The tests on characters that the shapes of the questions use. *)
Definition not_capital_A_to_D (c : ascii) : bool :=
  negb ((65 <=? N_of_ascii c) && (N_of_ascii c <=? 68))%N.

Definition is_not (x : ascii) (c : ascii) : bool := negb (Ascii.eqb c x).

Definition starts_with_digit (s : string) : bool :=
  match s with
  | EmptyString => false
  | String c _ => Py.isdigit c
  end.

End MatchSpec.

(** The one-character matchers of a pattern all have the property [Q]. *)
Module MatchSets.
Import Re.

Fixpoint all_sets (Q : cset -> Prop) (r : regex) : Prop :=
  match r with
  | Eps => True
  | One cs => Q cs
  | Rep cs _ _ => Q cs
  | Seq r1 r2 => all_sets Q r1 /\ all_sets Q r2
  | Group _ r' => all_sets Q r'
  | Opt r' => all_sets Q r'
  end.

(** Every character that the set [cs] accepts passes the test [q]. *)
Definition set_within (ic : bool) (q : ascii -> bool) (cs : cset) : Prop :=
  forall c : ascii, in_set ic cs c = true -> q c = true.

End MatchSets.

(* ===================================================================== *)
(** * [llm_providers.py]: [_clean_text]                                   *)
(* ===================================================================== *)

Module Providers.

(** [s.split(sep)] for a separator of one character: the pieces between
    the separators, one piece for a string without any. *)
Fixpoint split_on (sep : ascii) (s : string) : list string :=
  match s with
  | EmptyString => [EmptyString]
  | String c s' =>
      if Ascii.eqb c sep then EmptyString :: split_on sep s'
      else match split_on sep s' with
           | piece :: pieces => String c piece :: pieces
           | [] => [String c EmptyString]
           end
  end.

(** [_clean_text(text)]; [sentences[:-1]] is [removelast] and
    [sentences[-1]] the last piece. *)
Definition clean_text (text : string) : string :=
  let text := PyList.join " " (Py.split text) in
  let sentences := split_on "." text in
  let text :=
    if Nat.ltb 1 (List.length sentences)
       && Nat.ltb (String.length (Py.strip (List.last sentences EmptyString)))
            10
    then PyList.join "." (List.removelast sentences) ++ "."
    else text in
  Py.strip text.

(** No character of [s] is [x]. *)
Definition free_of (x : ascii) (s : string) : bool :=
  MatchSpec.all_chars (MatchSpec.is_not x) s.

End Providers.

(* ===================================================================== *)
(** * [chains.py]: the explanation and the quiz, with the fallback        *)
(* ===================================================================== *)

(** The calls to the language models are collaborators: a call returns
    a text or raises an exception with a message. *)
Module Chains.

Inductive outcome : Type :=
  | Returned (text : string)
  | Raised (message : string).

Record models : Type := Models {
  explanation_chain_run : string -> outcome;
  quiz_chain_run : string -> outcome;
  generate_with_fallback : string -> nat -> outcome
}.

(** [fallback_response and not fallback_response.startswith("Error")] *)
Definition usable (fallback_response : string) : bool :=
  Page.truthy fallback_response
  && negb (Py.startswith "Error" fallback_response).

(** The two line breaks of ["\n\n"]. *)
Definition blank_line : string :=
  String App.nl (String App.nl EmptyString).


(** [_format_fallback_quiz(fallback_response, topic)] *)
Definition format_fallback_quiz (fallback_response topic : string) : string :=
  "**Multiple Choice Questions (3 questions):**

1. What is the main purpose of a CV?
   A) To list personal hobbies
   B) To showcase work experience and qualifications
   C) To write a story
   D) To make friends
   Correct Answer: B

2. What should be included in a professional CV?
   A) Only personal information
   B) Work experience, education, and skills
   C) Only education
   D) Only skills
   Correct Answer: B

3. What language was the CV written in?
   A) English
   B) French
   C) Dutch
   D) German
   Correct Answer: C

**Fill in the Blanks (2 questions):**
1. A CV is also known as a ______ [Hint: another name for CV]
   Answer: resume

2. Blal Masroor worked as a kitchen ______ in restaurants [Hint: job position]
   Answer: assistant

**Short Answer Questions (2 questions):**
1. What type of work experience does Blal Masroor have?
   Expected Answer: He has experience working in restaurants as a kitchen assistant, with certifications in culinary arts.

2. What certifications does Blal Masroor have?
   Expected Answer: He has certifications in chocolate making, praline making, bread baking, and pastry making from Centrum voor Volwassenenonderwijs Gent.

[Generated by fallback LLM - Basic quiz format]".

(** [generate_quiz(topic, content)] *)
Definition generate_quiz (m : models) (topic content : string) : string :=
  let content :=
    if negb (Page.truthy content) then "Topic: " ++ topic else content in
  let input_text := "Topic: " ++ topic ++ blank_line ++ "Content: " ++ content in
  match quiz_chain_run m input_text with
  | Returned response => response
  | Raised e =>
      let error_msg := "Error generating quiz: " ++ e in
      let simple_prompt :=
        "Create a quiz about: " ++ topic ++ blank_line
        ++ "Generate 3 multiple choice questions, 2 fill-in-the-blank questions, and 2 short answer questions." in
      match generate_with_fallback m simple_prompt 1500 with
      | Returned fallback_response =>
          if usable fallback_response
          then format_fallback_quiz fallback_response topic
          else error_msg
      | Raised _ => error_msg
      end
  end.

(** The text that the quiz chain is given. *)
Definition quiz_input (topic content : string) : string :=
  "Topic: " ++ topic ++ blank_line ++ "Content: "
  ++ (if negb (Page.truthy content) then "Topic: " ++ topic else content).

(** The text that the fallback is given for a quiz. *)
Definition quiz_fallback_prompt (topic : string) : string :=
  "Create a quiz about: " ++ topic ++ blank_line
  ++ "Generate 3 multiple choice questions, 2 fill-in-the-blank questions, and 2 short answer questions.".

End Chains.

Import Re App Spec.

(* ===================================================================== *)
(** * Facts about the string operations                                   *)
(* ===================================================================== *)

Section StringFacts.

Lemma startswith_spec (p s : string) :
  Py.startswith p s = true <-> exists after, s = p ++ after.
Proof.
  revert s. induction p as [|c p IH]; intros s; simpl.
  - split; [intros _; exists s; reflexivity | reflexivity].
  - destruct s as [|c' s]; simpl.
    + split; [discriminate | intros [after H]; discriminate].
    + rewrite andb_true_iff, Ascii.eqb_eq, IH. split.
      * intros [-> [after ->]]. now exists after.
      * intros [after H]. inversion H. split; [reflexivity | now exists after].
Qed.

Lemma contains_spec (needle hay : string) :
  Py.contains needle hay = true <-> occurs_in needle hay.
Proof.
  unfold occurs_in. induction hay as [|c hay IH]; simpl.
  - rewrite orb_false_r, startswith_spec. split.
    + intros [after H]. exists "", after. exact H.
    + intros [before [after H]]. destruct before; simpl in H.
      * now exists after.
      * discriminate.
  - rewrite orb_true_iff, startswith_spec, IH. split.
    + intros [[after H] | [before [after H]]].
      * exists "", after. exact H.
      * exists (String c before), after. simpl. now rewrite H.
    + intros [before [after H]]. destruct before as [|c' before]; simpl in H.
      * left. now exists after.
      * right. inversion H. now exists before, after.
Qed.

(** The empty string occurs in every string. *)
Lemma contains_empty (hay : string) : Py.contains "" hay = true.
Proof. destruct hay; reflexivity. Qed.

Lemma contains_in_empty (needle : string) :
  Py.contains needle "" = true <-> needle = "".
Proof. destruct needle; simpl; split; congruence. Qed.

Lemma lower_empty_iff (s : string) : Py.lower s = "" <-> s = "".
Proof. destruct s; simpl; split; congruence. Qed.

Lemma get_absent (d : gmap string string) (key : string) :
  d !! key = None -> Py.get d key = "".
Proof. unfold Py.get. now intros ->. Qed.

Lemma get_present (d : gmap string string) (key v : string) :
  d !! key = Some v -> Py.get d key = v.
Proof. unfold Py.get. now intros ->. Qed.

End StringFacts.

(* ===================================================================== *)
(** * The scoring loops                                                   *)
(* ===================================================================== *)

Lemma tally_eq (t u : tally) :
  total_questions t = total_questions u ->
  correct_answers t = correct_answers u ->
  weak_areas t = weak_areas u -> t = u.
Proof. destruct t, u; simpl; intros; subst; reflexivity. Qed.

Lemma passed_missed_length (gs : list graded) :
  passed gs + List.length (missed gs) = List.length gs.
Proof.
  unfold passed, missed. induction gs as [|[[] d] gs IH]; simpl; lia.
Qed.

Lemma passed_app (gs hs : list graded) :
  passed (gs ++ hs) = passed gs + passed hs.
Proof. unfold passed. now rewrite List.filter_app, List.length_app. Qed.

Lemma missed_app (gs hs : list graded) :
  missed (gs ++ hs) = (missed gs ++ missed hs)%list.
Proof. unfold missed. now rewrite List.filter_app, List.map_app. Qed.

Lemma tally_add_nil (t : tally) : tally_add t [] = t.
Proof.
  apply tally_eq; unfold tally_add, passed, missed; simpl;
    [lia | lia | apply List.app_nil_r].
Qed.

Lemma tally_add_app (t : tally) (gs hs : list graded) :
  tally_add (tally_add t gs) hs = tally_add t (gs ++ hs).
Proof.
  apply tally_eq; unfold tally_add; simpl.
  - rewrite List.length_app. lia.
  - rewrite passed_app. lia.
  - now rewrite missed_app, List.app_assoc.
Qed.

Lemma mark_count (t : tally) (b : bool) (d : string) :
  mark b d (count_question t) = tally_add t [(b, d)].
Proof.
  destruct b; apply tally_eq; unfold tally_add, passed, missed;
    simpl; try lia; try reflexivity.
  now rewrite List.app_nil_r.
Qed.

Section Loop.
Context {T : Type} (p : nat -> T -> bool) (d : nat -> nat -> T -> string).

(** A loop over [enumerate] grades the items one after the other. *)
Lemma fold_loop (l : list T) : forall (i : nat) (t : tally),
  fold_left (loop_step p d) (enumerate_from i l) t
  = tally_add t (loop_grades p d (total_questions t) i l).
Proof.
  induction l as [|x l IH]; intros i t; simpl.
  - now rewrite tally_add_nil.
  - unfold loop_step at 2. simpl.
    rewrite mark_count, IH.
    rewrite tally_add_app. simpl.
    now replace (total_questions t + 1) with (S (total_questions t)) by lia.
Qed.

Lemma loop_grades_length (l : list T) : forall n i,
  List.length (loop_grades p d n i l) = List.length l.
Proof. induction l; intros; simpl; [reflexivity | now rewrite IHl]. Qed.

(** The same grades read off the enumerated list, when the line only
    needs the position. *)
Lemma loop_grades_map (f : nat -> T -> string) (l : list T) :
  forall n i,
    (forall k x, d (n + k) (i + k) x = f (i + k) x) ->
    loop_grades p d n i l
    = List.map (fun iq => (p (fst iq) (snd iq), f (fst iq) (snd iq)))
        (enumerate_from i l).
Proof.
  induction l as [|x l IH]; intros n i Hd; simpl; [reflexivity |].
  f_equal.
  - specialize (Hd 0 x). rewrite !Nat.add_0_r in Hd. now rewrite Hd.
  - apply IH. intros k y. specialize (Hd (S k) y).
    now rewrite <- !Nat.add_succ_comm in Hd.
Qed.
End Loop.

Lemma enumerate_from_length {T : Type} (l : list T) : forall i,
  List.length (enumerate_from i l) = List.length l.
Proof. induction l; intros; simpl; [reflexivity | now rewrite IHl]. Qed.

Lemma enumerate_from_map {T U : Type} (f : nat -> T -> U) (l : list T) :
  forall i,
    enumerate_from i (List.map (fun iq => f (fst iq) (snd iq))
                        (enumerate_from i l))
    = List.map (fun iq => (fst iq, f (fst iq) (snd iq))) (enumerate_from i l).
Proof. induction l; intros; simpl; [reflexivity | now rewrite IHl]. Qed.

Section Scoring.
Variable session : session_state.

Lemma mcq_loop (qs : list mcq) (t : tally) :
  fold_left (mcq_step session) (enumerate qs) t
  = tally_add t
      (List.map
         (fun iq => (mcq_passes session (fst iq) (snd iq),
                     weak_area (fst iq + 1) (mcq_question (snd iq))))
         (enumerate qs)).
Proof.
  change (mcq_step session)
    with (loop_step (mcq_passes session)
            (fun _ i q => weak_area (i + 1) (mcq_question q))).
  unfold enumerate. rewrite fold_loop. f_equal.
  now apply (loop_grades_map _ _
               (fun i q => weak_area (i + 1) (mcq_question q))).
Qed.

Lemma blank_loop (n_mcq : nat) (qs : list blank) (t : tally) :
  fold_left (blank_step session n_mcq) (enumerate qs) t
  = tally_add t
      (List.map
         (fun iq => (blank_passes session (fst iq) (snd iq),
                     weak_area (n_mcq + fst iq + 1) (blank_question (snd iq))))
         (enumerate qs)).
Proof.
  change (blank_step session n_mcq)
    with (loop_step (blank_passes session)
            (fun _ i q => weak_area (n_mcq + i + 1) (blank_question q))).
  unfold enumerate. rewrite fold_loop. f_equal.
  now apply (loop_grades_map _ _
               (fun i q => weak_area (n_mcq + i + 1) (blank_question q))).
Qed.

Lemma short_loop (qs : list short) (t : tally) :
  fold_left (short_step session) (enumerate qs) t
  = tally_add t
      (List.map
         (fun jkq => (short_passes session (fst (snd jkq)) (snd (snd jkq)),
                      weak_area (total_questions t + fst jkq + 1)
                        (short_question (snd (snd jkq)))))
         (enumerate (short_keyed (ShortList qs)))).
Proof.
  change (short_step session)
    with (loop_step
            (fun i q =>
               short_passes session ("short_answer_" ++ Py.str_of_nat i) q)
            (fun n (_ : nat) q => weak_area (S n) (short_question q))).
  unfold enumerate. rewrite fold_loop. f_equal. simpl. unfold enumerate.
  rewrite (enumerate_from_map
             (fun i q => ("short_answer_" ++ Py.str_of_nat i, q))).
  rewrite List.map_map. simpl.
  apply (loop_grades_map
           (fun i q =>
              short_passes session ("short_answer_" ++ Py.str_of_nat i) q)
           _
           (fun i q => weak_area (total_questions t + i + 1)
                         (short_question q))).
  intros k x. simpl. f_equal. lia.
Qed.

Lemma score_short_graded (f : short_field) (t : tally) :
  score_short session f t
  = tally_add t
      (List.map
         (fun jkq => (short_passes session (fst (snd jkq)) (snd (snd jkq)),
                      weak_area (total_questions t + fst jkq + 1)
                        (short_question (snd (snd jkq)))))
         (enumerate (short_keyed f))).
Proof.
  destruct f as [|q|qs]; unfold score_short; simpl.
  - now rewrite tally_add_nil.
  - unfold short_step_at. rewrite mark_count. simpl.
    now replace (total_questions t + 0 + 1) with (S (total_questions t))
      by lia.
  - destruct qs as [|q qs]; [now rewrite tally_add_nil |].
    apply short_loop.
Qed.

(** The three loops grade the items of the quiz in item order. *)
Lemma score_tally_graded (quiz : quiz_data) :
  score_tally session quiz
  = {| total_questions := List.length (graded_items session quiz);
       correct_answers := passed (graded_items session quiz);
       weak_areas := missed (graded_items session quiz) |}.
Proof.
  unfold score_tally. rewrite mcq_loop, blank_loop, tally_add_app.
  fold (graded_mcq session quiz). fold (graded_blank session quiz).
  rewrite score_short_graded, tally_add_app.
  assert (Hn : total_questions
                 (tally_add
                    {| total_questions := 0; correct_answers := 0;
                       weak_areas := [] |}
                    (graded_mcq session quiz ++ graded_blank session quiz))
               = List.length (mcq_questions quiz)
                 + List.length (fill_blanks quiz)).
  { unfold graded_mcq, graded_blank, enumerate. simpl.
    now rewrite List.length_app, !List.length_map, !enumerate_from_length. }
  rewrite Hn. fold (graded_short session quiz).
  rewrite <- List.app_assoc. reflexivity.
Qed.

Lemma graded_items_length (quiz : quiz_data) :
  List.length (graded_items session quiz) = item_count quiz.
Proof.
  unfold graded_items, graded_mcq, graded_blank, graded_short, item_count,
    enumerate.
  rewrite !List.length_app, !List.length_map, !enumerate_from_length.
  destruct (short_answer quiz); simpl; unfold enumerate;
    rewrite ?List.length_map, ?enumerate_from_length; lia.
Qed.
End Scoring.

(* ===================================================================== *)
(** * The grading rules                                                   *)
(* ===================================================================== *)

Lemma mark_graded_correct (b : bool) (area : string) (t : tally) :
  graded_correct t (mark b area (count_question t)) <-> b = true.
Proof.
  unfold graded_correct. destruct b; simpl; split; try tauto; try congruence.
  intros (_ & H & _). lia.
Qed.


(** The rule of a blank, read on the two lowered strings. *)
Lemma blank_rule (session : session_state) (i : nat) (q : blank) :
  let user_answer :=
    Py.lower (Py.get (quiz_answers session) ("blank_" ++ Py.str_of_nat i)) in
  let correct_answer := Py.lower (blank_answer q) in
  blank_passes session i q = true
  <-> occurs_in user_answer correct_answer
      \/ occurs_in correct_answer user_answer.
Proof.
  simpl. unfold blank_passes.
  now rewrite orb_true_iff, !contains_spec.
Qed.

(** A blank with no answer passes, whatever answer is expected. *)
Lemma blank_unanswered_passes (session : session_state) (i : nat) (q : blank) :
  quiz_answers session !! ("blank_" ++ Py.str_of_nat i) = None ->
  blank_passes session i q = true.
Proof.
  intros H. unfold blank_passes. rewrite (get_absent _ _ H). simpl.
  now rewrite contains_empty.
Qed.






(** C1: the first blank of the canned quiz expects "resume".  In a
    session that holds only the three multiple-choice letters, no
    answer is stored for the blank: the lookup gives the empty string,
    which occurs in every string, and the blank is graded correct
    although the expected answer is not empty; the report counts both
    blanks as correct. *)
Theorem blank_unanswered_resume :
  let q := Blank "1. A CV is also known as a ______." "resume" in
  let session := session_of [("mcq_0", "A"); ("mcq_1", "A"); ("mcq_2", "A")] in
  quiz_answers session !! ("blank_" ++ Py.str_of_nat 0) = None
  /\ blank_answer q <> ""
  /\ blank_passes session 0 q = true
  /\ graded_correct tally0 (blank_step session 3 tally0 (0, q))
  /\ option_map (fun r => (correct r, total r))
       (display_quiz_results session create_fallback_quiz_data)
     = Some (2, 7).
Proof.
  cbv zeta.
  assert (H : quiz_answers
                (session_of [("mcq_0", "A"); ("mcq_1", "A"); ("mcq_2", "A")])
              !! ("blank_" ++ Py.str_of_nat 0) = None)
    by (vm_compute; reflexivity).
  split; [exact H |]. split; [discriminate |].
  split; [now apply blank_unanswered_passes |].
  split; [| vm_compute; reflexivity].
  unfold blank_step. apply mark_graded_correct.
  now apply blank_unanswered_passes.
Qed.


Lemma unanswered_blanks_pass (f : nat -> blank -> string) (l : list blank) :
  forall i : nat,
    List.length
      (List.filter fst
         (List.map
            (fun iq : nat * blank =>
               (blank_passes empty_session (fst iq) (snd iq),
                f (fst iq) (snd iq)))
            (enumerate_from i l)))
    = List.length l.
Proof.
  induction l as [|q l IH]; intros i; simpl.
  - reflexivity.
  - rewrite blank_unanswered_passes by reflexivity. simpl. now rewrite IH.
Qed.

(** With an empty answer set every blank of every quiz is counted as
    correct. *)
Lemma empty_answers_blanks_pass (quiz : quiz_data) :
  passed (graded_blank empty_session quiz) = List.length (fill_blanks quiz).
Proof.
  apply (unanswered_blanks_pass
           (fun i q =>
              weak_area (List.length (mcq_questions quiz) + i + 1)
                (blank_question q))).
Qed.

(* ===================================================================== *)
(** * The score report                                                    *)
(* ===================================================================== *)

Lemma percentage_of_total (c t : nat) :
  exists p : Q,
    percentage_of c t = Some p
    /\ (0 < t ->
        (p == 100 * inject_Z (Z.of_nat c) / inject_Z (Z.of_nat t))%Q)
    /\ (t = 0 -> (p == 0)%Q).
Proof.
  unfold percentage_of, Py.truediv. destruct t as [|t]; simpl.
  - exists 0%Q. split; [reflexivity |]. split; [lia | reflexivity].
  - eexists. split; [reflexivity |]. split; [| discriminate].
    intros _. unfold Qdiv. ring.
Qed.

Lemma percentage_of_range (c t : nat) (p : Q) :
  c <= t -> percentage_of c t = Some p -> (0 <= p /\ p <= 100)%Q.
Proof.
  unfold percentage_of, Py.truediv. destruct t as [|t]; simpl.
  - intros _ [= <-]. split; [apply Qle_refl | discriminate].
  - intros Hle [= <-].
    assert (Ht : (0 < inject_Z (Z.of_nat (S t)))%Q).
    { unfold Qlt, inject_Z. simpl. lia. }
    assert (Hc : (0 <= inject_Z (Z.of_nat c))%Q).
    { unfold Qle, inject_Z. simpl. lia. }
    assert (Hct : (inject_Z (Z.of_nat c) <= inject_Z (Z.of_nat (S t)))%Q).
    { unfold Qle, inject_Z. simpl Qnum. simpl Qden. lia. }
    split.
    + apply Qmult_le_0_compat; [| discriminate].
      apply Qle_shift_div_l; [exact Ht |]. now rewrite Qmult_0_l.
    + apply Qle_trans with (1 * 100)%Q; [| discriminate].
      apply Qmult_le_compat_r; [| discriminate].
      apply Qle_shift_div_r; [exact Ht |]. now rewrite Qmult_1_l.
Qed.



(** C10: in every report [correct] is at most [total], the percentage
    lies between 0 and 100, and the weak areas are one line for each
    question that did not pass, in item order: multiple-choice
    questions, then blanks, then short answers; their number is
    [total - correct]. *)
Theorem score_report_bounds (session : session_state) (quiz : quiz_data) :
  exists r : score_report,
    display_quiz_results session quiz = Some r
    /\ 0 <= correct r <= total r
    /\ (0 <= percentage r /\ percentage r <= 100)%Q
    /\ List.length (missed_items r) = total r - correct r
    /\ correct r + List.length (missed_items r) = total r
    /\ missed_items r
       = (missed (graded_mcq session quiz)
          ++ missed (graded_blank session quiz)
          ++ missed (graded_short session quiz))%list.
Proof.
  pose proof (passed_missed_length (graded_items session quiz)) as Hpm.
  unfold display_quiz_results. rewrite score_tally_graded. simpl.
  destruct (percentage_of (passed (graded_items session quiz))
              (List.length (graded_items session quiz))) as [p|] eqn:Hp.
  - eexists. split; [reflexivity |]. simpl.
    split; [lia |]. split.
    + eapply percentage_of_range; [| exact Hp]. lia.
    + split; [lia |]. split; [lia |].
      unfold graded_items. now rewrite !missed_app.
  - destruct (percentage_of_total (passed (graded_items session quiz))
                (List.length (graded_items session quiz))) as (p & Hp' & _).
    congruence.
Qed.

Lemma enumerate_from_in_snd {T : Type} (l : list T) :
  forall (i : nat) (iq : nat * T),
    In iq (enumerate_from i l) -> In (snd iq) l.
Proof.
  induction l as [|x l IH]; intros i iq; simpl; [tauto |].
  intros [<- | H]; [now left | right; eauto].
Qed.

(** The graded items only depend on the answers under the keys of the
    quiz. *)
Lemma graded_items_agree (s1 s2 : session_state) (quiz : quiz_data) :
  (forall key : string,
      In key (answer_keys quiz) ->
      quiz_answers s1 !! key = quiz_answers s2 !! key) ->
  graded_items s1 quiz = graded_items s2 quiz.
Proof.
  intros H. unfold graded_items, graded_mcq, graded_blank, graded_short.
  f_equal; [| f_equal]; apply List.map_ext_in; intros iq Hin; f_equal.
  - unfold mcq_passes, Py.get. rewrite H; [reflexivity |].
    unfold answer_keys. apply List.in_or_app. left.
    now apply (List.in_map (fun iq => "mcq_" ++ Py.str_of_nat (fst iq))).
  - unfold blank_passes, Py.get. rewrite H; [reflexivity |].
    unfold answer_keys. apply List.in_or_app. right.
    apply List.in_or_app. left.
    now apply (List.in_map (fun iq => "blank_" ++ Py.str_of_nat (fst iq))).
  - unfold short_passes, Py.get. rewrite H; [reflexivity |].
    unfold answer_keys. apply List.in_or_app. right.
    apply List.in_or_app. right.
    apply List.in_map. now apply enumerate_from_in_snd in Hin.
Qed.

(** C9: the report is a function of the quiz and of the stored answers
    alone: two sessions that hold the same answers under the keys of
    the quiz, whatever else they hold, get the same report (correct,
    total, percentage and weak areas) for the same quiz. *)
Theorem score_deterministic (s1 s2 : session_state) (quiz : quiz_data) :
  (forall key : string,
      In key (answer_keys quiz) ->
      quiz_answers s1 !! key = quiz_answers s2 !! key) ->
  display_quiz_results s1 quiz = display_quiz_results s2 quiz.
Proof.
  intros H. unfold display_quiz_results.
  rewrite !score_tally_graded. simpl.
  now rewrite (graded_items_agree s1 s2 quiz H).
Qed.

Lemma score_deterministic_witness :
  display_quiz_results
    (SessionState {[ "mcq_0" := "B" ]} true false "cv")
    create_fallback_quiz_data
  = display_quiz_results
      (SessionState {[ "mcq_0" := "B" ]} false true "history")
      create_fallback_quiz_data.
Proof.
  apply (score_deterministic
           (SessionState {[ "mcq_0" := "B" ]} true false "cv")
           (SessionState {[ "mcq_0" := "B" ]} false true "history")).
  intros key _. reflexivity.
Defined.

(* ===================================================================== *)
(** * The parser                                                          *)
(* ===================================================================== *)

Lemma append_each_map {M T : Type} (f : M -> T) (ms : list M) :
  forall acc : list T, append_each f ms acc = (acc ++ List.map f ms)%list.
Proof.
  unfold append_each. induction ms as [|m ms IH]; intros acc; simpl.
  - now rewrite List.app_nil_r.
  - now rewrite IH, <- List.app_assoc.
Qed.

Lemma parsed_mcq_questions (quiz_text : string) :
  mcq_questions (parsed quiz_text)
  = List.map mcq_of_match (mcq_matches quiz_text).
Proof. unfold parsed. simpl. now rewrite append_each_map. Qed.

Lemma parsed_fill_blanks (quiz_text : string) :
  fill_blanks (parsed quiz_text)
  = List.map blank_of_match (blank_matches quiz_text).
Proof. unfold parsed. simpl. now rewrite append_each_map. Qed.

(** The short-answer field after the search: nothing, one question, or
    a list of exactly two. *)
Lemma short_of_match_shape (sm : option groups) :
  short_of_match sm = NoShort
  \/ (exists q, short_of_match sm = OneShort q)
  \/ (exists q1 q2, short_of_match sm = ShortList [q1; q2]).
Proof.
  destruct sm as [g|]; simpl; [| now left].
  destruct (group g 3) as [[|c s]|]; eauto.
Qed.

(** C3: when the three extractions leave no multiple-choice question,
    no blank and no short-answer question, the parser returns the
    canned quiz of [create_fallback_quiz_data]: three multiple-choice
    questions, two blanks and two short-answer questions. *)
Theorem parse_fallback (quiz_text : string) :
  mcq_questions (parsed quiz_text) = [] ->
  fill_blanks (parsed quiz_text) = [] ->
  short_items (short_answer (parsed quiz_text)) = [] ->
  let quiz := parse_quiz_for_display quiz_text in
  quiz = create_fallback_quiz_data
  /\ List.length (mcq_questions quiz) = 3
  /\ List.length (fill_blanks quiz) = 2
  /\ List.length (short_items (short_answer quiz)) = 2
  /\ item_count quiz = 7.
Proof.
  intros Hm Hb Hs. cbv zeta.
  assert (H : parse_quiz_for_display quiz_text = create_fallback_quiz_data).
  { unfold parse_quiz_for_display. cbv zeta. rewrite Hm, Hb.
    destruct (short_answer (parsed quiz_text)) as [|q|qs]; simpl in *.
    - reflexivity.
    - discriminate.
    - now subst qs. }
  rewrite H. repeat split.
Qed.

Lemma parse_fallback_witness :
  let quiz := parse_quiz_for_display "Sorry, I cannot write a quiz." in
  quiz = create_fallback_quiz_data
  /\ List.length (mcq_questions quiz) = 3
  /\ List.length (fill_blanks quiz) = 2
  /\ List.length (short_items (short_answer quiz)) = 2
  /\ item_count quiz = 7.
Proof.
  apply (parse_fallback "Sorry, I cannot write a quiz."); vm_compute;
    reflexivity.
Defined.

(** When some extraction finds a question the parsed lists are returned
    as they are. *)
Lemma parse_partial (quiz_text : string) :
  mcq_questions (parsed quiz_text) <> []
  \/ fill_blanks (parsed quiz_text) <> []
  \/ short_items (short_answer (parsed quiz_text)) <> [] ->
  parse_quiz_for_display quiz_text = parsed quiz_text.
Proof.
  intros H. unfold parse_quiz_for_display. cbv zeta.
  destruct (mcq_questions (parsed quiz_text)) as [|m ms]; [| reflexivity].
  destruct (fill_blanks (parsed quiz_text)) as [|b bs]; [| reflexivity].
  destruct (short_answer (parsed quiz_text)) as [|q|[|q qs]]; simpl in *;
    try reflexivity; destruct H as [H | [H | H]]; congruence.
Qed.




(** C8: the parser returns at most two short-answer questions: the
    search takes one section, which gives one question or two, and the
    canned quiz has two; of a section with three entries the third is
    dropped. *)
Theorem short_answer_at_most_two (quiz_text : string) :
  (short_answer (parsed quiz_text) = NoShort
   \/ (exists q, short_answer (parsed quiz_text) = OneShort q)
   \/ (exists q1 q2, short_answer (parsed quiz_text) = ShortList [q1; q2]))
  /\ List.length (short_items (short_answer (parse_quiz_for_display quiz_text)))
     <= 2
  /\ short_answer (parse_quiz_for_display three_short_answers)
     = ShortList [ Short "1. Say why?" "it is so";
                   Short "Say how?" "like this" ].
Proof.
  pose proof (short_of_match_shape (short_match quiz_text)) as Hshape.
  split; [exact Hshape |]. split; [| vm_compute; reflexivity].
  unfold parse_quiz_for_display.
  destruct (is_nil _ && is_nil _ && negb _); simpl.
  - lia.
  - destruct Hshape as [-> | [[q ->] | [q1 [q2 ->]]]]; simpl; lia.
Qed.

(* ===================================================================== *)
(** * What a match of the multiple-choice pattern captures                *)
(* ===================================================================== *)

Section MatcherFacts.
Context {A : Type}.

(** A successful run went through its continuation. *)
Lemma rep_greedy_k (p : ascii -> bool) (s : string) :
  forall (min : nat) (k : string -> option A) (x : A),
    rep_greedy p min s k = Some x -> exists s', k s' = Some x.
Proof.
  induction s as [|c s IH]; intros min k x; simpl.
  - destruct min; [eauto | discriminate].
  - destruct (p c).
    + destruct (rep_greedy p (Nat.pred min) s k) eqn:E.
      * intros [= <-]. eauto.
      * destruct min; [eauto | discriminate].
    + destruct min; [eauto | discriminate].
Qed.

Lemma rep_lazy_k (p : ascii -> bool) (s : string) :
  forall (min : nat) (k : string -> option A) (x : A),
    rep_lazy p min s k = Some x -> exists s', k s' = Some x.
Proof.
  induction s as [|c s IH]; intros min k x; simpl.
  - destruct min; [| discriminate]. destruct (k "") eqn:E; [| discriminate].
    intros [= <-]. eauto.
  - destruct min as [|min].
    + destruct (k (String c s)) eqn:E.
      * intros [= <-]. eauto.
      * destruct (p c); [eauto | discriminate].
    + destruct (p c); [eauto | discriminate].
Qed.

Lemma run_k (ic : bool) (r : regex) :
  forall (s : string) (g : groups) (k : string -> groups -> option A) (x : A),
    run ic r s g k = Some x -> exists s' g', k s' g' = Some x.
Proof.
  induction r as [|cs|cs min greedy|r1 IH1 r2 IH2|n r IH|r IH];
    intros s g k x; simpl.
  - eauto.
  - destruct s as [|c s]; [discriminate |].
    destruct (in_set ic cs c); [eauto | discriminate].
  - destruct greedy; intros H.
    + apply rep_greedy_k in H as [s' H]. eauto.
    + apply rep_lazy_k in H as [s' H]. eauto.
  - intros H. apply IH1 in H as (s1 & g1 & H). eauto.
  - intros H. apply IH in H as (s1 & g1 & H). eauto.
  - destruct (run ic r s g k) eqn:E.
    + intros [= <-]. eauto.
    + eauto.
Qed.

(** A successful run of a sequence ran its last member. *)
Lemma run_seq_last (ic : bool) (r : regex) (rs : list regex) :
  forall (s : string) (g : groups) (k : string -> groups -> option A) (x : A),
    run ic (Re.seq (rs ++ [r])) s g k = Some x ->
    exists s' g', run ic r s' g' k = Some x.
Proof.
  induction rs as [|r0 rs IH]; intros s g k x; simpl.
  - intros H. exists s, g. exact H.
  - intros H. apply run_k in H as (s1 & g1 & H). eauto.
Qed.
End MatcherFacts.

(** Every match of [findall] is a match at some position. *)
Lemma findall_from_match (ic : bool) (r : regex) (s : string) :
  forall (skip : nat) (g : groups),
    In g (findall_from ic r skip s) ->
    exists s' rest, match_at ic r s' = Some (rest, g).
Proof.
  induction s as [|c s IH]; intros skip g; simpl.
  - destruct skip; simpl; [| tauto].
    destruct (match_at ic r "") as [[rest g0]|] eqn:E; simpl; [| tauto].
    intros [<- | []]. eauto.
  - destruct skip; simpl; [| apply IH].
    destruct (match_at ic r (String c s)) as [[rest g0]|] eqn:E; simpl.
    + intros [<- | H]; [eauto | now apply IH in H].
    + apply IH.
Qed.

(** A letter of [[A-D]], with or without [re.IGNORECASE], is not white
    space. *)
Lemma letter_not_space (ic : bool) (c : ascii) :
  in_set ic (CSet false [Range "A" "D"]) c = true -> Py.isspace c = false.
Proof.
  destruct ic, c as [[] [] [] [] [] [] [] []]; vm_compute; congruence.
Qed.

Lemma consumed_one (c : ascii) (s : string) :
  consumed (String c s) s = String c "".
Proof.
  unfold consumed. simpl String.length.
  replace (S (String.length s) - String.length s) with 1 by lia.
  reflexivity.
Qed.

(** A match of the multiple-choice pattern ends with one letter in
    group 6. *)
Lemma mcq_match_letter (ic : bool) (s rest : string) (g : groups) :
  match_at ic mcq_pattern s = Some (rest, g) ->
  exists c : ascii,
    mcq_correct (mcq_of_match g) = String c ""
    /\ in_set ic (CSet false [Range "A" "D"]) c = true.
Proof.
  unfold match_at. intros H.
  change mcq_pattern
    with (Re.seq
            ([ numbered 1 [Range "A" "D"];
               spaces0; str "A)"; spaces0;
               Group 2 (lazy1 (none_of [Chr "B"]));
               spaces0; str "B)"; spaces0;
               Group 3 (lazy1 (none_of [Chr "C"]));
               spaces0; str "C)"; spaces0;
               Group 4 (lazy1 (none_of [Chr "D"]));
               spaces0; str "D)"; spaces0;
               Group 5 (lazy1 (none_of [Chr "C"]));
               spaces0; str "Correct Answer:"; spaces0 ]
             ++ [Group 6 (One (CSet false [Range "A" "D"]))])) in H.
  apply run_seq_last in H as (s' & g' & H). simpl in H.
  destruct s' as [|c s']; [discriminate |].
  destruct (in_set ic (CSet false [Range "A" "D"]) c) eqn:Hc;
    [| discriminate].
  injection H as _ <-. exists c. split; [| exact Hc].
  unfold mcq_of_match, group_str. simpl. rewrite consumed_one.
  unfold Py.strip. simpl. rewrite (letter_not_space ic c Hc).
  simpl. now rewrite (letter_not_space ic c Hc).
Qed.

(** Every multiple-choice question that the parser returns has a
    correct option of one character, so never the empty string. *)
Lemma parsed_mcq_correct_letter (quiz_text : string) (q : mcq) :
  In q (mcq_questions (parse_quiz_for_display quiz_text)) ->
  exists c : ascii, mcq_correct q = String c "".
Proof.
  unfold parse_quiz_for_display. cbv zeta.
  destruct (is_nil _ && is_nil _ && negb _).
  - simpl. intros [<- | [<- | [<- | []]]]; simpl; eauto.
  - rewrite parsed_mcq_questions, List.in_map_iff.
    intros (g & <- & Hg). unfold mcq_matches in Hg.
    destruct (findall false mcq_pattern quiz_text) as [|g0 gs] eqn:E.
    + apply findall_from_match in Hg as (s' & rest & Hm).
      apply mcq_match_letter in Hm as (c & Hc & _). eauto.
    + rewrite <- E in Hg.
      apply findall_from_match in Hg as (s' & rest & Hm).
      apply mcq_match_letter in Hm as (c & Hc & _). eauto.
Qed.

(* ===================================================================== *)
(** * Sample evaluations                                                  *)
(* ===================================================================== *)

Example lower_ex : Py.lower "Resume A-Z" = "resume a-z".
Proof. reflexivity. Qed.

Example strip_ex : Py.strip "  a b  " = "a b".
Proof. reflexivity. Qed.

Example split_ex : Py.split " ab  c d " = ["ab"; "c"; "d"].
Proof. reflexivity. Qed.

Example weak_area_ex :
  weak_area 4 "1. A CV is also known as a ______."
  = "Question 4: 1. A CV is also known as a ______....".
Proof. reflexivity. Qed.

(** The blank "resume": the answers "resume", "a resume" and "re" pass,
    "cv" does not. *)
Example blank_resume_ex :
  let q := Blank "1. A CV is also known as a ______." "resume" in
  List.map (fun a => blank_passes (session_of [("blank_0", a)]) 0 q)
    ["resume"; "A Resume"; "re"; "cv"]
  = [true; true; true; false].
Proof. vm_compute. reflexivity. Qed.

(** A keyword written twice counts twice: "go" alone matches three of
    the four keywords. *)
Example repeated_keyword_ex :
  let q := Short "1. What next?" "go go go stop" in
  keyword_matches (Py.split (Py.lower (short_expected q))) "go" = 3
  /\ short_passes (session_of [("short_answer", "go")]) "short_answer" q
     = true.
Proof. vm_compute. split; reflexivity. Qed.

(** The canned quiz with every question answered as expected. *)
Example all_correct_ex :
  option_map (fun r => (correct r, total r, Qred (percentage r), missed_items r))
    (display_quiz_results
       (session_of
          [ ("mcq_0", "B"); ("mcq_1", "B"); ("mcq_2", "C");
            ("blank_0", "resume"); ("blank_1", "assistant");
            ("short_answer_0",
             "He has experience working in restaurants as a kitchen assistant, with certifications in culinary arts.");
            ("short_answer_1",
             "He has certifications in chocolate making, praline making, bread baking, and pastry making from Centrum voor Volwassenenonderwijs Gent.") ])
       create_fallback_quiz_data)
  = Some (7, 7, 100%Q, []).
Proof. vm_compute. reflexivity. Qed.

(** A text with one question of each kind is returned as parsed. *)
Example parse_ex :
  parse_quiz_for_display
    "1. The sky is ______. Answer: blue
2. Sky? A) red B) blue C) pink D) grey Correct Answer: B
Short Answer Questions: 3. Why is it so? Expected Answer: light scatters"
  = {| mcq_questions := [ Mcq "2. Sky?" ["red"; "blue"; "pink"; "grey"] "B" ];
       fill_blanks := [ Blank "1. The sky is" "blue" ];
       short_answer := OneShort (Short "3. Why is it so?" "light scatters");
       raw_text :=
         "1. The sky is ______. Answer: blue
2. Sky? A) red B) blue C) pink D) grey Correct Answer: B
Short Answer Questions: 3. Why is it so? Expected Answer: light scatters" |}.
Proof. vm_compute. reflexivity. Qed.

(* ===================================================================== *)
(** * The learning progress                                               *)
(* ===================================================================== *)

Import MemorySpec.

Lemma mem_In (x : string) (l : list string) :
  PyList.mem x l = true <-> In x l.
Proof.
  unfold PyList.mem. rewrite List.existsb_exists. split.
  - intros (y & Hy & Heq). apply String.eqb_eq in Heq. now subst.
  - intros H. exists x. split; [exact H | apply String.eqb_refl].
Qed.

Lemma mem_not_In (x : string) (l : list string) :
  PyList.mem x l = false <-> ~ In x l.
Proof.
  rewrite <- mem_In. destruct (PyList.mem x l); split; congruence.
Qed.

Section Unique.
Context {T : Type} (key : T -> string).

Lemma unique_fold (l : list T) : forall (acc : list T) (seen : gset string),
  List.fold_left (Memory.unique_step key) l (acc, seen)
  = ((acc ++ dedupe key seen l)%list,
     seen ∪ list_to_set (List.map key l)).
Proof.
  induction l as [|x l IH]; intros acc seen; simpl.
  - rewrite List.app_nil_r. f_equal. set_solver.
  - unfold Memory.unique_step at 2. simpl.
    destruct (bool_decide (key x ∈ seen)) eqn:E.
    + rewrite IH. f_equal. apply bool_decide_eq_true in E. set_solver.
    + rewrite IH, <- List.app_assoc. simpl. f_equal. set_solver.
Qed.

Lemma unique_by_dedupe (l : list T) :
  Memory.unique_by key l = dedupe key ∅ l.
Proof. unfold Memory.unique_by. now rewrite unique_fold. Qed.

Lemma dedupe_keys_fresh (l : list T) : forall (seen : gset string) (x : T),
  In x (dedupe key seen l) -> In x l /\ key x ∉ seen.
Proof.
  induction l as [|y l IH]; intros seen x; simpl; [tauto |].
  destruct (bool_decide (key y ∈ seen)) eqn:E.
  - intros H. apply IH in H as [H1 H2]. tauto.
  - apply bool_decide_eq_false in E. intros [<- | H]; [tauto |].
    apply IH in H as [H1 H2]. split; [tauto | set_solver].
Qed.

Lemma dedupe_NoDup (l : list T) : forall seen : gset string,
  List.NoDup (List.map key (dedupe key seen l)).
Proof.
  induction l as [|y l IH]; intros seen; simpl; [constructor |].
  destruct (bool_decide (key y ∈ seen)) eqn:E; [apply IH |].
  simpl. constructor; [| apply IH].
  rewrite List.in_map_iff. intros (x & Hk & Hx).
  apply dedupe_keys_fresh in Hx as [_ Hx]. set_solver.
Qed.

Lemma dedupe_sublist (l : list T) : forall seen : gset string,
  sublist (dedupe key seen l) l.
Proof.
  induction l as [|y l IH]; intros seen; simpl; [constructor |].
  destruct (bool_decide (key y ∈ seen)).
  - apply sublist_cons, IH.
  - apply sublist_skip, IH.
Qed.

(** A list whose keys are distinct and new is kept whole. *)
Lemma dedupe_id (l : list T) : forall seen : gset string,
  List.NoDup (List.map key l) ->
  (forall x, In x l -> key x ∉ seen) ->
  dedupe key seen l = l.
Proof.
  induction l as [|y l IH]; intros seen Hnd Hseen; simpl; [reflexivity |].
  inversion Hnd as [|k ks Hnotin Hnd']; subst.
  destruct (bool_decide (key y ∈ seen)) eqn:E.
  - apply bool_decide_eq_true in E. exfalso. apply (Hseen y); simpl; tauto.
  - f_equal. apply IH; [exact Hnd' |].
    intros x Hx. specialize (Hseen x (or_intror Hx)).
    assert (key x <> key y).
    { intros Heq. apply Hnotin. rewrite <- Heq. now apply List.in_map. }
    set_solver.
Qed.

(** The first entry of every new key is kept. *)
Lemma dedupe_find (k : string) (l : list T) : forall seen : gset string,
  k ∉ seen ->
  List.find (has_key key k) (dedupe key seen l) = List.find (has_key key k) l.
Proof.
  induction l as [|y l IH]; intros seen Hk; simpl; [reflexivity |].
  unfold has_key at 2. destruct (String.eqb (key y) k) eqn:Ey.
  - apply String.eqb_eq in Ey. subst k.
    rewrite bool_decide_eq_false_2 by exact Hk. simpl.
    unfold has_key. now rewrite String.eqb_refl.
  - apply String.eqb_neq in Ey.
    destruct (bool_decide (key y ∈ seen)) eqn:E; simpl.
    + now apply IH.
    + unfold has_key at 1. rewrite (proj2 (String.eqb_neq _ _) Ey).
      apply IH. set_solver.
Qed.
End Unique.

Lemma sublist_rev {T : Type} (l1 l2 : list T) :
  sublist l1 l2 -> sublist (List.rev l1) (List.rev l2).
Proof.
  induction 1 as [|x l1 l2 H IH|x l1 l2 H IH]; simpl.
  - constructor.
  - now apply sublist_app.
  - now apply sublist_inserts_r.
Qed.
Lemma update_first_keys (key explanation now : string)
    (l : list Memory.topic_entry) :
  List.map Memory.topic_key (Memory.update_first key explanation now l)
  = List.map Memory.topic_key l.
Proof.
  induction l as [|t l IH]; simpl; [reflexivity |].
  destruct (String.eqb (Memory.topic_key t) key); simpl; [reflexivity |].
  now rewrite IH.
Qed.

Lemma update_first_length (key explanation now : string)
    (l : list Memory.topic_entry) :
  List.length (Memory.update_first key explanation now l) = List.length l.
Proof.
  rewrite <- (List.length_map Memory.topic_key), update_first_keys.
  apply List.length_map.
Qed.

Lemma update_first_find (key explanation now : string)
    (l : list Memory.topic_entry) :
  In key (List.map Memory.topic_key l) ->
  exists t,
    List.find (has_key Memory.topic_key key)
      (Memory.update_first key explanation now l) = Some t
    /\ Memory.te_explanation t = explanation
    /\ Memory.te_timestamp t = now
    /\ Memory.topic_key t = key.
Proof.
  induction l as [|t l IH]; simpl; [tauto |].
  destruct (String.eqb (Memory.topic_key t) key) eqn:E.
  - intros _. eexists. simpl. unfold has_key at 1.
    unfold Memory.topic_key at 1. simpl. fold (Memory.topic_key t).
    rewrite E. repeat split. now apply String.eqb_eq in E.
  - intros [H | H]; [apply String.eqb_neq in E; contradiction |].
    simpl. unfold has_key at 1. rewrite E. now apply IH.
Qed.

Lemma update_first_find_other (key other explanation now : string)
    (l : list Memory.topic_entry) :
  other <> key ->
  List.find (has_key Memory.topic_key other)
    (Memory.update_first key explanation now l)
  = List.find (has_key Memory.topic_key other) l.
Proof.
  intros Hne. induction l as [|t l IH]; simpl; [reflexivity |].
  destruct (String.eqb (Memory.topic_key t) key) eqn:E; simpl.
  - unfold has_key. unfold Memory.topic_key at 1. simpl.
    fold (Memory.topic_key t). apply String.eqb_eq in E.
    rewrite E. now rewrite (proj2 (String.eqb_neq key other)) by congruence.
  - now rewrite IH.
Qed.

Lemma find_app_not_in {T : Type} (p : T -> bool) (l : list T) (x : T) :
  (forall y, In y l -> p y = false) ->
  List.find p (l ++ [x]) = if p x then Some x else None.
Proof.
  induction l as [|y l IH]; intros H; simpl; [reflexivity |].
  rewrite (H y (or_introl eq_refl)). apply IH. intros z Hz. apply H. now right.
Qed.

Lemma find_app_keep {T : Type} (p : T -> bool) (l : list T) (x : T) :
  p x = false -> List.find p (l ++ [x]) = List.find p l.
Proof.
  intros Hx. induction l as [|y l IH]; simpl; [now rewrite Hx |].
  destruct (p y); [reflexivity | exact IH].
Qed.

(** X1: the topics of the progress stay distinct up to the case of
    their letters when a topic is added, so the list never holds two
    entries for one topic. *)
Theorem add_topic_explanation_unique (now topic explanation : string)
    (lp : Memory.learning_progress) :
  List.NoDup (List.map Memory.topic_key (Memory.topics_explained lp)) ->
  List.NoDup
    (List.map Memory.topic_key
       (Memory.topics_explained
          (Memory.add_topic_explanation now topic explanation lp))).
Proof.
  intros Hnd. unfold Memory.add_topic_explanation. simpl.
  destruct (PyList.mem (Py.lower topic) _) eqn:E; simpl.
  - now rewrite update_first_keys.
  - apply mem_not_In in E. rewrite List.map_app. simpl.
    apply List.NoDup_app; repeat split; try assumption.
    + constructor; [simpl; tauto | constructor].
    + intros k Hk [<- | []]. contradiction.
Qed.

Lemma add_topic_explanation_unique_witness :
  List.NoDup
    (List.map Memory.topic_key
       (Memory.topics_explained
          (Memory.add_topic_explanation "10:00" "PYTHON" "second"
             (Memory.add_topic_explanation "09:00" "Python" "first"
                Memory.initial_progress)))).
Proof.
  apply add_topic_explanation_unique. apply add_topic_explanation_unique.
  constructor.
Defined.

(** X2: after [add_topic_explanation] the entry found for the topic,
    whatever the case of its letters, carries the new explanation and
    time; the entries of the other topics are found as before; the
    list grows by one entry when the topic was not there and keeps its
    length when it was. *)
Theorem add_topic_explanation_lookup (now topic explanation : string)
    (lp : Memory.learning_progress) :
  let lp' := Memory.add_topic_explanation now topic explanation lp in
  let known :=
    PyList.mem (Py.lower topic)
      (List.map Memory.topic_key (Memory.topics_explained lp)) in
  (exists t,
      Memory.find_topic topic (Memory.topics_explained lp') = Some t
      /\ Memory.te_explanation t = explanation
      /\ Memory.te_timestamp t = now
      /\ Py.lower (Memory.te_topic t) = Py.lower topic)
  /\ (forall other : string,
         Py.lower other <> Py.lower topic ->
         Memory.find_topic other (Memory.topics_explained lp')
         = Memory.find_topic other (Memory.topics_explained lp))
  /\ List.length (Memory.topics_explained lp')
     = List.length (Memory.topics_explained lp) + (if known then 0 else 1)
  /\ Memory.quiz_scores lp' = Memory.quiz_scores lp
  /\ Memory.lp_weak_areas lp' = Memory.lp_weak_areas lp.
Proof.
  cbv zeta. unfold Memory.add_topic_explanation, Memory.find_topic. simpl.
  change (fun t : Memory.topic_entry =>
            String.eqb (Memory.topic_key t) (Py.lower topic))
    with (has_key Memory.topic_key (Py.lower topic)).
  destruct (PyList.mem (Py.lower topic) _) eqn:E; simpl.
  - apply mem_In in E. repeat split.
    + destruct (update_first_find (Py.lower topic) explanation now _ E)
        as (t & Hf & He & Ht & Hk).
      exists t. repeat split; assumption.
    + intros other Hne.
      apply (update_first_find_other (Py.lower topic) (Py.lower other)).
      exact Hne.
    + rewrite update_first_length. lia.
  - apply mem_not_In in E. repeat split.
    + eexists. split.
      * rewrite find_app_not_in.
        -- unfold has_key, Memory.topic_key. simpl.
           now rewrite String.eqb_refl.
        -- intros y Hy. unfold has_key. apply String.eqb_neq.
           intros Heq. apply E. rewrite <- Heq. now apply List.in_map.
      * simpl. repeat split.
    + intros other Hne. apply find_app_keep.
      unfold Memory.topic_key. simpl. apply String.eqb_neq. congruence.
    + rewrite List.length_app. simpl. lia.
Qed.

Lemma add_topic_explanation_lookup_witness :
  Memory.find_topic "Sets"
    (Memory.topics_explained
       (Memory.add_topic_explanation "10:00" "PYTHON" "second"
          (Memory.add_topic_explanation "09:30" "Sets" "a set"
             (Memory.add_topic_explanation "09:00" "Python" "first"
                Memory.initial_progress))))
  = Some (Memory.TopicEntry "Sets" "a set" "09:30").
Proof.
  rewrite (proj1 (proj2 (add_topic_explanation_lookup "10:00" "PYTHON" "second"
             (Memory.add_topic_explanation "09:30" "Sets" "a set"
                (Memory.add_topic_explanation "09:00" "Python" "first"
                   Memory.initial_progress)))) "Sets").
  - reflexivity.
  - vm_compute. discriminate.
Defined.

Lemma progress_eq (lp : Memory.learning_progress)
    (topics : list Memory.topic_entry) :
  topics = Memory.topics_explained lp ->
  {| Memory.topics_explained := topics;
     Memory.quiz_scores := Memory.quiz_scores lp;
     Memory.lp_weak_areas := Memory.lp_weak_areas lp;
     Memory.strengths := Memory.strengths lp;
     Memory.revision_suggestions := Memory.revision_suggestions lp |} = lp.
Proof. intros ->. now destruct lp. Qed.

(** X3: [get_learning_summary] leaves in the progress the first entry
    of every topic, in the order they had: the topics it keeps are
    distinct up to case, every topic is found as before, and the count
    it reports is the number of entries kept.  When the topics are
    already distinct, as [add_topic_explanation] keeps them, the
    progress is unchanged and the count is the number of entries. *)
Theorem get_learning_summary_topics (lp : Memory.learning_progress) :
  let lp' := fst (Memory.get_learning_summary lp) in
  let summary := snd (Memory.get_learning_summary lp) in
  List.NoDup (List.map Memory.topic_key (Memory.topics_explained lp'))
  /\ sublist (Memory.topics_explained lp') (Memory.topics_explained lp)
  /\ (forall topic : string,
         Memory.find_topic topic (Memory.topics_explained lp')
         = Memory.find_topic topic (Memory.topics_explained lp))
  /\ Memory.total_topics_studied summary
     = List.length (Memory.topics_explained lp')
  /\ Memory.total_quizzes_taken summary
     = List.length (Memory.quiz_scores lp)
  /\ (List.NoDup (List.map Memory.topic_key (Memory.topics_explained lp)) ->
      lp' = lp
      /\ Memory.total_topics_studied summary
         = List.length (Memory.topics_explained lp)).
Proof.
  cbv zeta. unfold Memory.get_learning_summary. simpl.
  rewrite unique_by_dedupe. repeat split.
  - apply dedupe_NoDup.
  - apply dedupe_sublist.
  - intros topic. unfold Memory.find_topic.
    apply (dedupe_find Memory.topic_key (Py.lower topic)). set_solver.
  - apply progress_eq. apply dedupe_id; [assumption | set_solver].
  - f_equal. apply dedupe_id; [assumption | set_solver].
Qed.

Lemma get_learning_summary_topics_witness :
  let lp :=
    Memory.add_topic_explanation "10:00" "PYTHON" "second"
      (Memory.add_topic_explanation "09:30" "Sets" "a set"
         (Memory.add_topic_explanation "09:00" "Python" "first"
            Memory.initial_progress)) in
  fst (Memory.get_learning_summary lp) = lp
  /\ Memory.total_topics_studied (snd (Memory.get_learning_summary lp))
     = List.length (Memory.topics_explained lp).
Proof.
  cbv zeta.
  apply (proj2 (proj2 (proj2 (proj2 (proj2
           (get_learning_summary_topics
              (Memory.add_topic_explanation "10:00" "PYTHON" "second"
                 (Memory.add_topic_explanation "09:30" "Sets" "a set"
                    (Memory.add_topic_explanation "09:00" "Python" "first"
                       Memory.initial_progress))))))))).
  vm_compute. repeat constructor; simpl; intuition discriminate.
Defined.

(** X4: [clear_duplicates] keeps for every quiz topic, up to case, its
    latest result and nothing else, in the order of the results: the
    topics of the results kept are distinct, the latest result of every
    topic is the same as before, and a second call changes nothing. *)
Theorem clear_duplicates_latest (lp : Memory.learning_progress) :
  let lp' := Memory.clear_duplicates lp in
  List.NoDup (List.map Memory.quiz_key (Memory.quiz_scores lp'))
  /\ sublist (Memory.quiz_scores lp') (Memory.quiz_scores lp)
  /\ (forall topic : string,
         Memory.latest_result topic (Memory.quiz_scores lp')
         = Memory.latest_result topic (Memory.quiz_scores lp))
  /\ List.NoDup (List.map Memory.topic_key (Memory.topics_explained lp'))
  /\ (forall topic : string,
         Memory.find_topic topic (Memory.topics_explained lp')
         = Memory.find_topic topic (Memory.topics_explained lp))
  /\ Memory.clear_duplicates lp' = lp'.
Proof.
  cbv zeta. unfold Memory.clear_duplicates. simpl.
  rewrite !unique_by_dedupe, !List.rev_involutive.
  repeat split.
  - rewrite List.map_rev. apply List.NoDup_rev, dedupe_NoDup.
  - rewrite <- (List.rev_involutive (Memory.quiz_scores lp)) at 2.
    apply sublist_rev, dedupe_sublist.
  - intros topic. unfold Memory.latest_result. rewrite List.rev_involutive.
    apply (dedupe_find Memory.quiz_key (Py.lower topic)). set_solver.
  - apply dedupe_NoDup.
  - intros topic. unfold Memory.find_topic.
    apply (dedupe_find Memory.topic_key (Py.lower topic)). set_solver.
  - f_equal.
    + apply dedupe_id; [apply dedupe_NoDup | set_solver].
    + f_equal. apply dedupe_id; [apply dedupe_NoDup | set_solver].
Qed.

Lemma add_weak_areas_app (areas : list string) : forall stored : list string,
  exists new : list string,
    Memory.add_weak_areas areas stored = (stored ++ new)%list
    /\ (forall a, In a new -> In a areas /\ ~ In a stored)
    /\ List.NoDup new
    /\ (forall a, In a areas -> In a stored \/ In a new).
Proof.
  unfold Memory.add_weak_areas.
  induction areas as [|x areas IH]; intros stored; simpl.
  - exists []. rewrite List.app_nil_r. repeat split; simpl; try tauto.
    constructor.
  - destruct (PyList.mem x stored) eqn:E; simpl.
    + apply mem_In in E. destruct (IH stored) as (new & -> & H1 & H2 & H3).
      exists new. repeat split; try assumption.
      * right. now apply H1.
      * now apply H1.
      * intros a [<- | Ha]; [now left | now apply H3].
    + apply mem_not_In in E.
      destruct (IH (stored ++ [x])%list) as (new & -> & H1 & H2 & H3).
      exists (x :: new). rewrite <- List.app_assoc. simpl. repeat split.
      * destruct H as [<- | H]; [now left | right; now apply H1].
      * destruct H as [<- | H]; [exact E |].
        intros Hs. apply (proj2 (H1 a H)). apply List.in_or_app. now left.
      * constructor; [| exact H2].
        intros Hx. apply (proj2 (H1 x Hx)). apply List.in_or_app.
        right. now left.
      * intros a [<- | Ha]; [right; now left |].
        destruct (H3 a Ha) as [Hs | Hn]; [| right; now right].
        apply List.in_app_or in Hs as [Hs | [<- | []]];
          [now left | right; now left].
Qed.

(** X5: [add_quiz_result] adds to the stored weak areas, after the ones
    already there and in their order, the areas of the quiz that were
    not stored yet, each once: every area of the quiz is stored
    afterwards, and a list without repetition stays without
    repetition. *)
Theorem add_quiz_result_weak_areas (now topic : string)
    (score total_questions : nat) (weak_areas : list string)
    (lp lp' : Memory.learning_progress) :
  Memory.add_quiz_result now topic score total_questions weak_areas lp
  = Some lp' ->
  (exists new : list string,
      Memory.lp_weak_areas lp' = (Memory.lp_weak_areas lp ++ new)%list
      /\ (forall a, In a new -> In a weak_areas /\ ~ In a (Memory.lp_weak_areas lp))
      /\ List.NoDup new)
  /\ (forall a, In a weak_areas -> In a (Memory.lp_weak_areas lp'))
  /\ (List.NoDup (Memory.lp_weak_areas lp) ->
      List.NoDup (Memory.lp_weak_areas lp')).
Proof.
  unfold Memory.add_quiz_result.
  destruct (Py.truediv score total_questions) as [q|]; [| discriminate].
  intros [= <-]. simpl.
  destruct (add_weak_areas_app weak_areas (Memory.lp_weak_areas lp))
    as (new & -> & H1 & H2 & H3).
  repeat split.
  - exists new. repeat split; try assumption; now apply H1.
  - intros a Ha. apply List.in_or_app. now apply H3.
  - intros Hnd. apply List.NoDup_app; repeat split; try assumption.
    intros a Ha Hn. now apply (proj2 (H1 a Hn)).
Qed.

Lemma add_quiz_result_weak_areas_witness :
  exists lp' : Memory.learning_progress,
    Memory.add_quiz_result "10:00" "cv" 1 3
      ["Question 2: b..."; "Question 1: a..."; "Question 2: b..."]
      {| Memory.topics_explained := []; Memory.quiz_scores := [];
         Memory.lp_weak_areas := ["Question 1: a..."];
         Memory.strengths := []; Memory.revision_suggestions := [] |}
    = Some lp'
    /\ List.NoDup (Memory.lp_weak_areas lp').
Proof.
  eexists. split; [reflexivity |].
  refine (proj2 (proj2
            (add_quiz_result_weak_areas "10:00" "cv" 1 3
               ["Question 2: b..."; "Question 1: a..."; "Question 2: b..."]
               {| Memory.topics_explained := []; Memory.quiz_scores := [];
                  Memory.lp_weak_areas := ["Question 1: a..."];
                  Memory.strengths := []; Memory.revision_suggestions := [] |}
               _ eq_refl)) _).
  constructor; [simpl; tauto | constructor].
Defined.

(** The parser never returns a quiz without questions. *)
Lemma parse_item_count_pos (quiz_text : string) :
  1 <= item_count (parse_quiz_for_display quiz_text).
Proof.
  unfold parse_quiz_for_display. cbv zeta.
  destruct (is_nil (mcq_questions (parsed quiz_text))
            && is_nil (fill_blanks (parsed quiz_text))
            && negb (short_truthy (short_answer (parsed quiz_text)))) eqn:E.
  - vm_compute. lia.
  - unfold item_count.
    destruct (mcq_questions (parsed quiz_text)) as [|m ms];
      [| simpl List.length; lia].
    destruct (fill_blanks (parsed quiz_text)) as [|b bs];
      [| simpl List.length; lia].
    destruct (short_answer (parsed quiz_text)) as [|q|[|q qs]];
      try discriminate E; simpl; lia.
Qed.

(** The report of a parsed quiz has at least one question. *)
Lemma parsed_report_facts (session : session_state) (quiz_text : string)
    (r : score_report) :
  display_quiz_results session (parse_quiz_for_display quiz_text) = Some r ->
  1 <= total r
  /\ correct r <= total r
  /\ (percentage r
      == 100 * inject_Z (Z.of_nat (correct r))
         / inject_Z (Z.of_nat (total r)))%Q.
Proof.
  pose proof (parse_item_count_pos quiz_text) as Hpos.
  pose proof (passed_missed_length
                (graded_items session (parse_quiz_for_display quiz_text)))
    as Hpm.
  pose proof (graded_items_length session (parse_quiz_for_display quiz_text))
    as Hlen.
  unfold display_quiz_results. rewrite score_tally_graded. simpl.
  destruct (percentage_of_total
              (passed (graded_items session (parse_quiz_for_display quiz_text)))
              (List.length
                 (graded_items session (parse_quiz_for_display quiz_text))))
    as (p & -> & Hp & _).
  intros [= <-]. simpl.
  split; [lia |]. split; [lia |]. apply Hp. lia.
Qed.



(** With a total that is not zero a result is appended. *)
Lemma add_quiz_result_some (now topic : string) (score total_questions : nat)
    (weak_areas : list string) (lp : Memory.learning_progress) :
  0 < total_questions ->
  exists (lp' : Memory.learning_progress) (p : Q),
    Memory.add_quiz_result now topic score total_questions weak_areas lp
    = Some lp'
    /\ Memory.quiz_scores lp'
       = (Memory.quiz_scores lp
          ++ [Memory.QuizResult topic score total_questions p weak_areas
                now])%list
    /\ (p == 100 * inject_Z (Z.of_nat score)
             / inject_Z (Z.of_nat total_questions))%Q
    /\ Memory.topics_explained lp' = Memory.topics_explained lp
    /\ Memory.revision_suggestions lp' = Memory.revision_suggestions lp.
Proof.
  unfold Memory.add_quiz_result, Py.truediv.
  destruct total_questions as [|n]; [lia |]. simpl.
  intros _. eexists. eexists. split; [reflexivity |]. simpl.
  repeat split. unfold Qdiv. ring.
Qed.



(** X8: saving the results of a parsed quiz never raises: the first
    rendering of the results page appends one result to the progress,
    with the score, the total and the percentage of the report and the
    current topic, and sets the saved flag; rendering the page again
    saves nothing more. *)
Theorem save_parsed_quiz_results (now quiz_text : string)
    (session : session_state) (lp : Memory.learning_progress)
    (r : score_report) :
  display_quiz_results session (parse_quiz_for_display quiz_text) = Some r ->
  quiz_saved_to_memory session = false ->
  exists (session' : session_state) (lp' : Memory.learning_progress) (p : Q),
    Memory.save_quiz_results now true session (correct r) (total r)
      (missed_items r) lp = Some (session', lp')
    /\ quiz_saved_to_memory session' = true
    /\ quiz_answers session' = quiz_answers session
    /\ Memory.quiz_scores lp'
       = (Memory.quiz_scores lp
          ++ [Memory.QuizResult (current_topic session) (correct r) (total r)
                p (missed_items r) now])%list
    /\ (p == percentage r)%Q
    /\ Memory.save_quiz_results now true session' (correct r) (total r)
         (missed_items r) lp' = Some (session', lp').
Proof.
  intros Hr Hflag.
  destruct (parsed_report_facts session quiz_text r Hr) as (Hpos & _ & Hp).
  destruct (add_quiz_result_some now (current_topic session)
              (correct r) (total r) (missed_items r) lp ltac:(lia))
    as (lp' & p & Hadd & Hq & Hpq & _).
  unfold Memory.save_quiz_results. rewrite Hflag. simpl. rewrite Hadd.
  eexists. exists lp', p. split; [reflexivity |]. simpl.
  repeat split; try assumption.
  now rewrite Hpq, Hp.
Qed.

Lemma save_parsed_quiz_results_witness :
  exists (session' : session_state) (lp' : Memory.learning_progress),
    Memory.save_quiz_results "10:00" true empty_session 2 7
      [ "Question 1: 1. What is the main purpose of a CV?...";
        "Question 2: 2. What should be included in a professional CV?...";
        "Question 3: 3. What language was the CV written in?...";
        "Question 6: 1. What type of work experience does Blal Masroor ...";
        "Question 7: 2. What certifications does Blal Masroor have?..." ]
      Memory.initial_progress
    = Some (session', lp')
    /\ quiz_saved_to_memory session' = true
    /\ List.length (Memory.quiz_scores lp') = 1.
Proof.
  destruct (save_parsed_quiz_results "10:00" "no quiz in this text"
              empty_session Memory.initial_progress
              {| correct := 2; total := 7; percentage := 200 # 7;
                 missed_items :=
                   [ "Question 1: 1. What is the main purpose of a CV?...";
                     "Question 2: 2. What should be included in a professional CV?...";
                     "Question 3: 3. What language was the CV written in?...";
                     "Question 6: 1. What type of work experience does Blal Masroor ...";
                     "Question 7: 2. What certifications does Blal Masroor have?..." ] |})
    as (s' & lp' & p & H1 & H2 & _ & H4 & _).
  - vm_compute. reflexivity.
  - reflexivity.
  - exists s', lp'. split; [exact H1 |]. split; [exact H2 |].
    rewrite H4. reflexivity.
Defined.


(* ===================================================================== *)
(** * The review of the wrong answers                                     *)
(* ===================================================================== *)

Lemma Qlt_bool_not_le (a b : Q) : Page.Qlt_bool a b = negb (Qle_bool b a).
Proof.
  unfold Page.Qlt_bool, Qle_bool. now rewrite Z.leb_antisym, negb_involutive.
Qed.

Lemma missed_cons (b : bool) (d : string) (gs : list graded) :
  missed ((b, d) :: gs) = ((if b then [] else [d]) ++ missed gs)%list.
Proof. unfold missed. simpl. now destruct b. Qed.

Section Review.
Variable session : session_state.

Lemma review_mcq_missed (l : list mcq) : forall i : nat,
  List.map Page.review_area
    (List.flat_map (Page.review_mcq session) (enumerate_from i l))
  = missed
      (List.map
         (fun iq => (mcq_passes session (fst iq) (snd iq),
                     weak_area (fst iq + 1) (mcq_question (snd iq))))
         (enumerate_from i l)).
Proof.
  induction l as [|q l IH]; intros i; simpl; [reflexivity |].
  rewrite List.map_app, IH, missed_cons. f_equal.
  unfold Page.review_mcq, mcq_passes. simpl.
  now destruct (String.eqb _ _).
Qed.

Lemma review_blank_missed (n_mcq : nat) (l : list blank) : forall i : nat,
  List.map Page.review_area
    (List.flat_map (Page.review_blank session n_mcq) (enumerate_from i l))
  = missed
      (List.map
         (fun iq => (blank_passes session (fst iq) (snd iq),
                     weak_area (n_mcq + fst iq + 1) (blank_question (snd iq))))
         (enumerate_from i l)).
Proof.
  induction l as [|q l IH]; intros i; simpl; [reflexivity |].
  rewrite List.map_app, IH, missed_cons. f_equal.
  unfold Page.review_blank, blank_passes. simpl.
  rewrite <- negb_orb. now destruct (_ || _).
Qed.

Lemma review_short_at_missed (key : string) (number : nat) (q : short) :
  List.map Page.review_area (Page.review_short_at session key number q)
  = if short_passes session key q then []
    else [weak_area number (short_question q)].
Proof.
  unfold Page.review_short_at, short_passes.
  rewrite Qlt_bool_not_le. now destruct (Qle_bool _ _).
Qed.

Lemma review_short_missed (n : nat) (l : list short) : forall i : nat,
  List.map Page.review_area
    (List.flat_map (Page.review_short session n) (enumerate_from i l))
  = missed
      (List.map
         (fun iq =>
            (short_passes session ("short_answer_" ++ Py.str_of_nat (fst iq))
               (snd iq),
             weak_area (n + fst iq + 1) (short_question (snd iq))))
         (enumerate_from i l)).
Proof.
  induction l as [|q l IH]; intros i; simpl; [reflexivity |].
  rewrite List.map_app, IH, missed_cons. f_equal.
  unfold Page.review_short. simpl. rewrite review_short_at_missed.
  now destruct (short_passes _ _ _).
Qed.

Lemma graded_short_list (quiz : quiz_data) (qs : list short) :
  short_answer quiz = ShortList qs ->
  graded_short session quiz
  = List.map
      (fun iq =>
         (short_passes session ("short_answer_" ++ Py.str_of_nat (fst iq))
            (snd iq),
          weak_area (List.length (mcq_questions quiz)
                     + List.length (fill_blanks quiz) + fst iq + 1)
            (short_question (snd iq))))
      (enumerate qs).
Proof.
  intros E. unfold graded_short. rewrite E. simpl. unfold enumerate.
  rewrite (enumerate_from_map
             (fun i q => ("short_answer_" ++ Py.str_of_nat i, q))).
  now rewrite List.map_map.
Qed.

(** X9: the section "Correct Answers" shows exactly the questions of
    the weak areas, in the same order and under the same numbers, the
    two passes over the quiz agreeing on every question; and a blank
    shown there always has a stored, non-empty answer, so the default
    text for a missing answer is never shown for a blank. *)
Theorem review_lists_weak_areas (quiz : quiz_data) (r : score_report) :
  display_quiz_results session quiz = Some r ->
  List.map Page.review_area
    (Page.review session quiz (total r) (missed_items r))
  = missed_items r
  /\ (forall e : Page.review_entry,
         In e (List.flat_map
                 (Page.review_blank session (List.length (mcq_questions quiz)))
                 (enumerate (fill_blanks quiz))) ->
         exists (i : nat) (a : string),
           quiz_answers session !! ("blank_" ++ Py.str_of_nat i) = Some a
           /\ a <> "" /\ Page.re_your_answer e = a).
Proof.
  intros Hr. split.
  - unfold display_quiz_results in Hr. rewrite score_tally_graded in Hr.
    simpl in Hr.
    destruct (percentage_of _ _) as [p|]; [| discriminate].
    injection Hr as <-. simpl.
    assert (Hparts :
      List.map Page.review_area
        (List.flat_map (Page.review_mcq session) (enumerate (mcq_questions quiz))
         ++ List.flat_map
              (Page.review_blank session (List.length (mcq_questions quiz)))
              (enumerate (fill_blanks quiz))
         ++ (if short_truthy (short_answer quiz)
             then match short_answer quiz with
                  | ShortList qs =>
                      List.flat_map
                        (Page.review_short session
                           (List.length (mcq_questions quiz)
                            + List.length (fill_blanks quiz)))
                        (enumerate qs)
                  | OneShort q =>
                      Page.review_short_at session "short_answer"
                        (List.length (graded_items session quiz)) q
                  | NoShort => []
                  end
             else []))%list
      = missed (graded_items session quiz)).
    { rewrite graded_items_length. unfold graded_items.
      rewrite !missed_app, !List.map_app. unfold enumerate.
      rewrite review_mcq_missed, review_blank_missed. do 2 f_equal.
      destruct (short_answer quiz) as [|q|qs] eqn:E; simpl.
      - unfold graded_short. now rewrite E.
      - rewrite review_short_at_missed.
        unfold graded_short, item_count. rewrite E. simpl.
        replace (List.length (mcq_questions quiz)
                 + List.length (fill_blanks quiz) + 0 + 1)
          with (List.length (mcq_questions quiz)
                + List.length (fill_blanks quiz) + 1) by lia.
        unfold missed. simpl. now destruct (short_passes _ _ _).
      - rewrite (graded_short_list quiz qs E).
        destruct qs as [|q qs]; [reflexivity |].
        apply review_short_missed. }
    unfold Page.review.
    destruct (missed (graded_items session quiz)) eqn:E; [reflexivity |].
    exact Hparts.
  - intros e He. apply List.in_flat_map in He as ([i q] & _ & He).
    unfold Page.review_blank in He. simpl in He.
    destruct (quiz_answers session !! ("blank_" ++ Py.str_of_nat i))
      as [a|] eqn:Ea.
    + destruct a as [|c a].
      * unfold Py.get in He. rewrite Ea in He. simpl in He.
        rewrite contains_empty in He. simpl in He. contradiction.
      * exists i, (String c a). split; [exact Ea |]. split; [discriminate |].
        destruct (negb _ && negb _); [| contradiction].
        destruct He as [<- | []]. simpl.
        unfold Page.get_or_no_answer. now rewrite Ea.
    + unfold Py.get in He. rewrite Ea in He. simpl in He.
      rewrite contains_empty in He. simpl in He. contradiction.
Qed.
End Review.

Lemma review_lists_weak_areas_witness :
  List.map Page.review_area
    (Page.review empty_session create_fallback_quiz_data 7
       [ "Question 1: 1. What is the main purpose of a CV?...";
         "Question 2: 2. What should be included in a professional CV?...";
         "Question 3: 3. What language was the CV written in?...";
         "Question 6: 1. What type of work experience does Blal Masroor ...";
         "Question 7: 2. What certifications does Blal Masroor have?..." ])
  = [ "Question 1: 1. What is the main purpose of a CV?...";
      "Question 2: 2. What should be included in a professional CV?...";
      "Question 3: 3. What language was the CV written in?...";
      "Question 6: 1. What type of work experience does Blal Masroor ...";
      "Question 7: 2. What certifications does Blal Masroor have?..." ].
Proof.
  apply (proj1 (review_lists_weak_areas empty_session
                  create_fallback_quiz_data
                  {| correct := 2; total := 7; percentage := 200 # 7;
                     missed_items :=
                       [ "Question 1: 1. What is the main purpose of a CV?...";
                         "Question 2: 2. What should be included in a professional CV?...";
                         "Question 3: 3. What language was the CV written in?...";
                         "Question 6: 1. What type of work experience does Blal Masroor ...";
                         "Question 7: 2. What certifications does Blal Masroor have?..." ] |}
                  ltac:(vm_compute; reflexivity))).
Defined.

(* ===================================================================== *)
(** * Collecting the answers                                              *)
(* ===================================================================== *)

Import PageSpec.

Lemma to_uint_nonnil (n : nat) : Nat.to_uint n <> Decimal.Nil.
Proof.
  rewrite <- (DecimalNat.Unsigned.of_to n) at 1.
  rewrite DecimalNat.Unsigned.to_of. apply DecimalFacts.unorm_nonnil.
Qed.

Lemma str_of_nat_inj (n m : nat) : Py.str_of_nat n = Py.str_of_nat m -> n = m.
Proof.
  unfold Py.str_of_nat. intros H.
  apply (f_equal NilZero.uint_of_string) in H.
  rewrite !NilZero.usu in H by apply to_uint_nonnil.
  injection H as H. now apply DecimalNat.Unsigned.to_uint_inj.
Qed.

Lemma str_of_nat_nonempty (n : nat) : Py.str_of_nat n <> "".
Proof.
  unfold Py.str_of_nat. intros H.
  apply (f_equal NilZero.uint_of_string) in H.
  rewrite NilZero.usu in H by apply to_uint_nonnil. discriminate.
Qed.

Lemma append_inj (p a b : string) : p ++ a = p ++ b -> a = b.
Proof. induction p; simpl; intros H; [exact H | injection H; auto]. Qed.

Lemma key_inj (p : string) (n m : nat) :
  p ++ Py.str_of_nat n = p ++ Py.str_of_nat m -> n = m.
Proof. intros H. now apply str_of_nat_inj, (append_inj p). Qed.

Lemma enumerate_from_ge {T : Type} (l : list T) : forall (i0 : nat) iq,
  In iq (enumerate_from i0 l) -> i0 <= fst iq.
Proof.
  induction l as [|x l IH]; intros i0 iq; simpl; [tauto |].
  intros [<- | H]; [simpl; lia |]. apply IH in H. lia.
Qed.

Lemma fold_left_ext {S T : Type} (f g : S -> T -> S) (l : list T) :
  (forall s x, f s x = g s x) ->
  forall s, fold_left f l s = fold_left g l s.
Proof.
  intros H. induction l as [|x l IH]; intros s; simpl; [reflexivity |].
  now rewrite H, IH.
Qed.

Section StoreLoop.
Context {T : Type} (keyf : nat -> string) (val : nat -> T -> option string).

Lemma store_opt_is_Some (key k : string) (v : option string)
    (d : gmap string string) :
  is_Some (d !! k) -> is_Some (store_opt key v d !! k).
Proof.
  destruct v as [v|]; simpl; [| tauto].
  intros H. destruct (decide (key = k)) as [->|Hne].
  - rewrite lookup_insert_eq. eauto.
  - now rewrite lookup_insert_ne.
Qed.

Lemma store_loop_cons (y : T) (l : list T) (i0 : nat)
    (d : gmap string string) :
  store_loop keyf val i0 (y :: l) d
  = store_loop keyf val (S i0) l (store_opt (keyf i0) (val i0 y) d).
Proof. reflexivity. Qed.

(** A loop never removes an answer. *)
Lemma store_loop_is_Some (k : string) (l : list T) :
  forall (i0 : nat) (d : gmap string string),
    is_Some (d !! k) -> is_Some (store_loop keyf val i0 l d !! k).
Proof.
  unfold store_loop. induction l as [|x l IH]; intros i0 d H; simpl.
  - exact H.
  - apply IH. now apply store_opt_is_Some.
Qed.

(** A loop leaves alone every key that is not one of its own. *)
Lemma store_loop_other (k : string) (l : list T) :
  forall (i0 : nat) (d : gmap string string),
    (forall iq, In iq (enumerate_from i0 l) -> keyf (fst iq) <> k) ->
    store_loop keyf val i0 l d !! k = d !! k.
Proof.
  unfold store_loop. induction l as [|x l IH]; intros i0 d H; simpl.
  - reflexivity.
  - rewrite IH by (intros iq Hiq; apply H; now right).
    specialize (H (i0, x) (or_introl eq_refl)). simpl in H.
    destruct (val i0 x); simpl; [now rewrite lookup_insert_ne | reflexivity].
Qed.

(** Under its own key a question finds what its widget gave, or what
    was there when the widget gave nothing. *)
Lemma store_loop_at (l : list T) :
  (forall n m, keyf n = keyf m -> n = m) ->
  forall (i0 : nat) (d : gmap string string) (i : nat) (x : T),
    In (i, x) (enumerate_from i0 l) ->
    store_loop keyf val i0 l d !! keyf i
    = match val i x with
      | Some v => Some v
      | None => d !! keyf i
      end.
Proof.
  intros Hinj. induction l as [|y l IH]; intros i0 d i x Hin;
    [destruct Hin |].
  rewrite store_loop_cons. destruct Hin as [[= <- <-] | H].
  - rewrite store_loop_other.
    + destruct (val i0 y); simpl; [apply lookup_insert_eq | reflexivity].
    + intros iq Hiq Heq. apply Hinj in Heq.
      apply enumerate_from_ge in Hiq. lia.
  - rewrite (IH _ _ _ _ H).
    destruct (val i x); [reflexivity |].
    assert (Hne : keyf i0 <> keyf i).
    { intros Heq. apply Hinj in Heq. apply enumerate_from_ge in H.
      simpl in H. lia. }
    destruct (val i0 y); simpl; [now rewrite lookup_insert_ne | reflexivity].
Qed.
End StoreLoop.

(** The loops of [collect_answers] are store loops. *)
Lemma collect_answers_loops (w : Page.widgets) (quiz : quiz_data)
    (answers : gmap string string) :
  Page.collect_answers w quiz answers
  = let d1 :=
      store_loop (fun i => "mcq_" ++ Py.str_of_nat i) (mcq_value w) 0
        (mcq_questions quiz) answers in
    let d2 :=
      store_loop (fun i => "blank_" ++ Py.str_of_nat i)
        (fun i (_ : blank) =>
           text_value (Page.text_input w ("blank_" ++ Py.str_of_nat i)))
        0 (fill_blanks quiz) d1 in
    match short_answer quiz with
    | ShortList qs =>
        store_loop (fun i => "short_answer_" ++ Py.str_of_nat i)
          (fun i (_ : short) =>
             text_value
               (Page.text_area w ("short_answer_" ++ Py.str_of_nat i)))
          0 qs d2
    | OneShort _ =>
        store_opt "short_answer"
          (text_value (Page.text_area w "short_answer")) d2
    | NoShort => d2
    end.
Proof.
  unfold Page.collect_answers, store_loop, enumerate. cbv zeta.
  rewrite (fold_left_ext (Page.collect_mcq w)
             (fun d iq =>
                store_opt ("mcq_" ++ Py.str_of_nat (fst iq))
                  (mcq_value w (fst iq) (snd iq)) d)).
  2:{ intros d iq. unfold Page.collect_mcq, mcq_value.
      destruct (Page.radio w _ _) as [sel|]; [| reflexivity].
      now destruct (Page.truthy sel). }
  rewrite (fold_left_ext (Page.collect_blank w)
             (fun d iq =>
                store_opt ("blank_" ++ Py.str_of_nat (fst iq))
                  (text_value
                     (Page.text_input w ("blank_" ++ Py.str_of_nat (fst iq))))
                  d)).
  2:{ intros d iq. unfold Page.collect_blank, Page.store_text, text_value.
      now destruct (Page.truthy _). }
  destruct (short_answer quiz) as [|q|qs]; simpl.
  - reflexivity.
  - unfold Page.store_text, text_value. now destruct (Page.truthy _).
  - destruct qs as [|q qs]; [reflexivity |].
    apply fold_left_ext. intros d iq.
    unfold Page.collect_short, Page.store_text, text_value.
    now destruct (Page.truthy _).
Qed.

Lemma nth_error_enumerate_from {T : Type} (l : list T) :
  forall i0 j : nat,
    j < List.length l ->
    exists x : T, List.nth_error (enumerate_from i0 l) j = Some (i0 + j, x).
Proof.
  induction l as [|y l IH]; intros i0 j Hj; simpl in Hj; [lia |].
  destruct j as [|j].
  - exists y. cbn [enumerate_from nth_error]. now rewrite Nat.add_0_r.
  - destruct (IH (S i0) j ltac:(lia)) as (x & Hx). exists x.
    cbn [enumerate_from nth_error]. rewrite Hx. do 2 f_equal. lia.
Qed.

Lemma mcq_value_selected (w : Page.widgets) (i : nat) (q : mcq) :
  Page.radio_index w ("mcq_" ++ Py.str_of_nat i) < List.length (mcq_options q) ->
  mcq_value w i q
  = Some (String
            (Page.chr (65 + Page.radio_index w ("mcq_" ++ Py.str_of_nat i)))
            "").
Proof.
  intros Hj. unfold mcq_value, Page.radio, Page.radio_options, enumerate.
  rewrite List.nth_error_map.
  destruct (nth_error_enumerate_from (mcq_options q) 0 _ Hj) as (x & ->).
  reflexivity.
Qed.

Lemma in_enumerate_keys {T : Type} (keyf : nat -> string) (l : list T)
    (iq : nat * T) :
  In iq (enumerate_from 0 l) ->
  In (keyf (fst iq)) (List.map (fun iq => keyf (fst iq)) (enumerate l)).
Proof. intros H. now apply (List.in_map (fun iq => keyf (fst iq))). Qed.

(** X10: a run of the quiz page never removes a stored answer, and
    writes only under the keys of the questions of the quiz. *)
Theorem collect_answers_keeps (w : Page.widgets) (quiz : quiz_data)
    (answers : gmap string string) (key : string) :
  (is_Some (answers !! key) ->
   is_Some (Page.collect_answers w quiz answers !! key))
  /\ (~ In key (answer_keys quiz) ->
      Page.collect_answers w quiz answers !! key = answers !! key).
Proof.
  rewrite collect_answers_loops. cbv zeta. split.
  - intros H.
    destruct (short_answer quiz) as [|q|qs];
      repeat first [ apply store_loop_is_Some | apply store_opt_is_Some ];
      exact H.
  - unfold answer_keys. intros Hnot.
    assert (Hm : forall iq, In iq (enumerate_from 0 (mcq_questions quiz)) ->
                   "mcq_" ++ Py.str_of_nat (fst iq) <> key).
    { intros iq Hiq <-. apply Hnot, List.in_or_app. left.
      now apply (in_enumerate_keys (fun i => "mcq_" ++ Py.str_of_nat i)). }
    assert (Hb : forall iq, In iq (enumerate_from 0 (fill_blanks quiz)) ->
                   "blank_" ++ Py.str_of_nat (fst iq) <> key).
    { intros iq Hiq <-. apply Hnot, List.in_or_app. right.
      apply List.in_or_app. left.
      now apply (in_enumerate_keys (fun i => "blank_" ++ Py.str_of_nat i)). }
    destruct (short_answer quiz) as [|q|qs] eqn:E.
    + now rewrite !store_loop_other.
    + destruct (text_value _); simpl.
      * rewrite lookup_insert_ne; [now rewrite !store_loop_other |].
        intros <-. apply Hnot, List.in_or_app. right.
        apply List.in_or_app. right. simpl. now left.
      * now rewrite !store_loop_other.
    + rewrite !store_loop_other; try assumption; [reflexivity |].
      intros iq Hiq <-. apply Hnot, List.in_or_app. right.
      apply List.in_or_app. right. simpl. rewrite List.map_map. simpl.
      now apply (in_enumerate_keys
                   (fun i => "short_answer_" ++ Py.str_of_nat i)).
Qed.

Lemma collect_answers_keeps_witness :
  let w := Page.Widgets (fun _ => 1) (fun _ => "") (fun _ => "") in
  let answers : gmap string string :=
    {[ "blank_0" := "resume"; "note" := "kept" ]} in
  is_Some (Page.collect_answers w create_fallback_quiz_data answers
           !! "blank_0")
  /\ Page.collect_answers w create_fallback_quiz_data answers !! "note"
     = answers !! "note".
Proof.
  cbv zeta. split.
  - apply (proj1 (collect_answers_keeps _ create_fallback_quiz_data _ _)).
    vm_compute. eauto.
  - apply (proj2 (collect_answers_keeps _ create_fallback_quiz_data _ _)).
    vm_compute. intuition discriminate.
Defined.

(** The letter of the selected option is stored under the key of the
    question, and the later loops leave it there. *)
Lemma mcq_stored (w : Page.widgets) (quiz : quiz_data)
    (answers : gmap string string) (i : nat) (q : mcq) :
  In (i, q) (enumerate (mcq_questions quiz)) ->
  Page.radio_index w ("mcq_" ++ Py.str_of_nat i) < List.length (mcq_options q) ->
  Page.collect_answers w quiz answers !! ("mcq_" ++ Py.str_of_nat i)
  = Some (String
            (Page.chr (65 + Page.radio_index w ("mcq_" ++ Py.str_of_nat i)))
            "").
Proof.
  intros Hin Hj. rewrite collect_answers_loops. cbv zeta.
  assert (Hd2 :
    store_loop (fun i => "blank_" ++ Py.str_of_nat i)
      (fun i (_ : blank) =>
         text_value (Page.text_input w ("blank_" ++ Py.str_of_nat i)))
      0 (fill_blanks quiz)
      (store_loop (fun i => "mcq_" ++ Py.str_of_nat i) (mcq_value w) 0
         (mcq_questions quiz) answers)
    !! ("mcq_" ++ Py.str_of_nat i)
    = Some (String
              (Page.chr
                 (65 + Page.radio_index w ("mcq_" ++ Py.str_of_nat i)))
              "")).
  { rewrite store_loop_other by (intros iq _ H; simpl in H; discriminate).
    rewrite (store_loop_at (fun i => "mcq_" ++ Py.str_of_nat i) _ _
               (key_inj "mcq_") _ _ _ _ Hin).
    now rewrite mcq_value_selected. }
  destruct (short_answer quiz) as [|q0|qs].
  - exact Hd2.
  - destruct (text_value _); simpl;
      [rewrite lookup_insert_ne by (simpl; discriminate) |]; exact Hd2.
  - rewrite store_loop_other by (intros iq _ H; simpl in H; discriminate).
    exact Hd2.
Qed.

(** X11: after a run of the quiz page, the answer stored for a
    multiple-choice question is the letter of the selected option, A
    for the first; the answer stored for a blank or a short-answer
    question is the text typed with the white space around it removed,
    and, when nothing is typed, what was stored before. *)
Theorem collect_answers_lookup (w : Page.widgets) (quiz : quiz_data)
    (answers : gmap string string) :
  let answers' := Page.collect_answers w quiz answers in
  (forall (i : nat) (q : mcq),
      In (i, q) (enumerate (mcq_questions quiz)) ->
      Page.radio_index w ("mcq_" ++ Py.str_of_nat i)
      < List.length (mcq_options q) ->
      List.length (mcq_options q) <= 191 ->
      answers' !! ("mcq_" ++ Py.str_of_nat i)
      = Some (String
                (Page.chr
                   (65 + Page.radio_index w ("mcq_" ++ Py.str_of_nat i)))
                ""))
  /\ (forall (i : nat) (q : blank),
         In (i, q) (enumerate (fill_blanks quiz)) ->
         answers' !! ("blank_" ++ Py.str_of_nat i)
         = match Page.text_input w ("blank_" ++ Py.str_of_nat i) with
           | EmptyString => answers !! ("blank_" ++ Py.str_of_nat i)
           | typed => Some (Py.strip typed)
           end)
  /\ (forall (qs : list short) (i : nat) (q : short),
         short_answer quiz = ShortList qs ->
         In (i, q) (enumerate qs) ->
         answers' !! ("short_answer_" ++ Py.str_of_nat i)
         = match Page.text_area w ("short_answer_" ++ Py.str_of_nat i) with
           | EmptyString => answers !! ("short_answer_" ++ Py.str_of_nat i)
           | typed => Some (Py.strip typed)
           end)
  /\ (forall q : short,
         short_answer quiz = OneShort q ->
         answers' !! "short_answer"
         = match Page.text_area w "short_answer" with
           | EmptyString => answers !! "short_answer"
           | typed => Some (Py.strip typed)
           end).
Proof.
  cbv zeta. rewrite collect_answers_loops. cbv zeta.
  assert (Hmb : forall i j, "mcq_" ++ Py.str_of_nat i
                            <> "blank_" ++ Py.str_of_nat j)
    by (intros i j; simpl; discriminate).
  assert (Hms : forall i j, "mcq_" ++ Py.str_of_nat i
                            <> "short_answer_" ++ Py.str_of_nat j)
    by (intros i j; simpl; discriminate).
  assert (Hbs : forall i j, "blank_" ++ Py.str_of_nat i
                            <> "short_answer_" ++ Py.str_of_nat j)
    by (intros i j; simpl; discriminate).
  assert (Hskip_blank : forall (k : string) d,
             (forall j, "blank_" ++ Py.str_of_nat j <> k) ->
             store_loop (fun i => "blank_" ++ Py.str_of_nat i)
               (fun i (_ : blank) =>
                  text_value (Page.text_input w ("blank_" ++ Py.str_of_nat i)))
               0 (fill_blanks quiz) d !! k = d !! k).
  { intros k d H. apply store_loop_other. intros iq _. apply H. }
  assert (Hskip_mcq : forall (k : string) d,
             (forall j, "mcq_" ++ Py.str_of_nat j <> k) ->
             store_loop (fun i => "mcq_" ++ Py.str_of_nat i) (mcq_value w)
               0 (mcq_questions quiz) d !! k = d !! k).
  { intros k d H. apply store_loop_other. intros iq _. apply H. }
  assert (Hskip_short : forall (k : string) (qs : list short) d,
             (forall j, "short_answer_" ++ Py.str_of_nat j <> k) ->
             store_loop (fun i => "short_answer_" ++ Py.str_of_nat i)
               (fun i (_ : short) =>
                  text_value
                    (Page.text_area w ("short_answer_" ++ Py.str_of_nat i)))
               0 qs d !! k = d !! k).
  { intros k qs d H. apply store_loop_other. intros iq _. apply H. }
  repeat split.
  - intros i q Hin Hj _.
    pose proof (mcq_stored w quiz answers i q Hin Hj) as H.
    rewrite collect_answers_loops in H. exact H.
  - intros i q Hin.
    assert (Hd2 :
      store_loop (fun i => "blank_" ++ Py.str_of_nat i)
        (fun i (_ : blank) =>
           text_value (Page.text_input w ("blank_" ++ Py.str_of_nat i)))
        0 (fill_blanks quiz)
        (store_loop (fun i => "mcq_" ++ Py.str_of_nat i) (mcq_value w) 0
           (mcq_questions quiz) answers)
      !! ("blank_" ++ Py.str_of_nat i)
      = match Page.text_input w ("blank_" ++ Py.str_of_nat i) with
        | EmptyString => answers !! ("blank_" ++ Py.str_of_nat i)
        | typed => Some (Py.strip typed)
        end).
    { rewrite (store_loop_at (fun i => "blank_" ++ Py.str_of_nat i) _ _
                 (key_inj "blank_") _ _ _ _ Hin).
      unfold text_value.
      destruct (Page.text_input w _); simpl; [| reflexivity].
      apply Hskip_mcq. intros j H. now apply (Hmb j i). }
    destruct (short_answer quiz) as [|q0|qs].
    + exact Hd2.
    + destruct (text_value _); simpl;
        [rewrite lookup_insert_ne by (simpl; discriminate) |]; exact Hd2.
    + rewrite Hskip_short by (intros j H; now apply (Hbs i j)). exact Hd2.
  - intros qs i q -> Hin.
    rewrite (store_loop_at (fun i => "short_answer_" ++ Py.str_of_nat i) _ _
               (key_inj "short_answer_") _ _ _ _ Hin).
    unfold text_value.
    destruct (Page.text_area w _); simpl; [| reflexivity].
    rewrite Hskip_blank by (intros j H; now apply (Hbs j i)).
    apply Hskip_mcq. intros j H. now apply (Hms j i).
  - intros q ->. unfold text_value.
    destruct (Page.text_area w "short_answer"); simpl.
    + rewrite Hskip_blank by (intros j H; simpl in H; discriminate).
      apply Hskip_mcq. intros j H. simpl in H. discriminate.
    + apply lookup_insert_eq.
Qed.

Lemma collect_answers_lookup_witness :
  let w := Page.Widgets (fun _ => 1) (fun _ => "") (fun _ => "") in
  Page.collect_answers w create_fallback_quiz_data ∅ !! "mcq_2" = Some "B".
Proof.
  cbv zeta.
  apply (proj1 (collect_answers_lookup
                  (Page.Widgets (fun _ => 1) (fun _ => "") (fun _ => ""))
                  create_fallback_quiz_data ∅) 2
           (Mcq "3. What language was the CV written in?"
              ["English"; "French"; "Dutch"; "German"] "C")).
  - vm_compute. tauto.
  - vm_compute. lia.
  - vm_compute. lia.
Defined.

(** X12: the letter stored by the page is the one the scoring reads:
    after a run of the page, a multiple-choice question is graded
    correct exactly when its correct option is the letter of the
    selected option; and a quiz with such a question always has an
    answer stored, so the submit button submits. *)
Theorem selected_option_graded (w : Page.widgets) (session : session_state)
    (quiz : quiz_data) (i : nat) (q : mcq) :
  In (i, q) (enumerate (mcq_questions quiz)) ->
  Page.radio_index w ("mcq_" ++ Py.str_of_nat i) < List.length (mcq_options q) ->
  List.length (mcq_options q) <= 191 ->
  let session' :=
    with_answers session
      (Page.collect_answers w quiz (quiz_answers session)) in
  (mcq_passes session' i q = true
   <-> mcq_correct q
       = String
           (Page.chr (65 + Page.radio_index w ("mcq_" ++ Py.str_of_nat i)))
           "")
  /\ quiz_submitted (Page.submit session') = true.
Proof.
  intros Hin Hj Hn. cbv zeta.
  pose proof (mcq_stored w quiz (quiz_answers session) i q Hin Hj) as Hl.
  split.
  - unfold mcq_passes, with_answers, Py.get. cbn [quiz_answers]. rewrite Hl.
    cbn [default from_option id]. rewrite String.eqb_eq. split; congruence.
  - unfold Page.submit, with_answers. cbn [quiz_answers].
    destruct (Nat.ltb_spec 0
                (size (Page.collect_answers w quiz (quiz_answers session))))
      as [_ | Hsz]; [reflexivity |].
    exfalso. assert (Hz : size (Page.collect_answers w quiz
                                  (quiz_answers session)) = 0) by lia.
    apply map_size_empty_iff in Hz. rewrite Hz in Hl.
    rewrite lookup_empty in Hl. discriminate.
Qed.

Lemma selected_option_graded_witness :
  let w := Page.Widgets (fun _ => 2) (fun _ => "") (fun _ => "") in
  mcq_passes
    (with_answers empty_session
       (Page.collect_answers w create_fallback_quiz_data ∅))
    2 (Mcq "3. What language was the CV written in?"
         ["English"; "French"; "Dutch"; "German"] "C")
  = true.
Proof.
  cbv zeta.
  apply (proj1 (selected_option_graded
                  (Page.Widgets (fun _ => 2) (fun _ => "") (fun _ => ""))
                  empty_session create_fallback_quiz_data 2
                  (Mcq "3. What language was the CV written in?"
                     ["English"; "French"; "Dutch"; "German"] "C")
                  ltac:(vm_compute; tauto) ltac:(vm_compute; lia)
                  ltac:(vm_compute; lia))).
  reflexivity.
Defined.


(* ===================================================================== *)
(** * [extract_key_content]                                               *)
(* ===================================================================== *)

Lemma string_length_app (a b : string) :
  String.length (a ++ b) = String.length a + String.length b.
Proof. induction a; simpl; [reflexivity | now rewrite IHa]. Qed.

Lemma slice_to_length (n : nat) (s : string) :
  String.length (Py.slice_to n s) = Nat.min n (String.length s).
Proof.
  revert s. induction n as [|n IH]; intros [|c s]; simpl; try reflexivity.
  now rewrite IH.
Qed.

Lemma drop_length (n : nat) (s : string) :
  String.length (Utils.drop n s) = String.length s - n.
Proof.
  revert s. induction n as [|n IH]; intros [|c s]; simpl; try reflexivity.
  apply IH.
Qed.

(** X13: [extract_key_content] returns a text that fits the limit as it
    is.  For a longer text and a limit of at least 2 it returns the
    first and the last [max_length // 2] characters around the
    46-character mark, so the result has up to [max_length + 46]
    characters, more than the limit and, for a text just over the
    limit, more than the text.  For a limit of 0 or 1 nothing is cut:
    the result is the mark followed by the whole text. *)
Theorem extract_key_content_cases (text : string) (max_length : Z) :
  let n := String.length text in
  let h := Z.to_nat (max_length / 2) in
  let result := Utils.extract_key_content text max_length in
  ((Z.of_nat n <= max_length)%Z -> result = text)
  /\ ((2 <= max_length < Z.of_nat n)%Z ->
      result
      = Py.slice_to h text ++ Utils.truncation_mark ++ Utils.drop (n - h) text
      /\ String.length result = 2 * h + 46
      /\ (Z.of_nat (String.length result) <= max_length + 46)%Z
      /\ (max_length + 45 <= Z.of_nat (String.length result))%Z)
  /\ ((0 <= max_length <= 1)%Z -> (max_length < Z.of_nat n)%Z ->
      result = Utils.truncation_mark ++ text).
Proof.
  cbv zeta. unfold Utils.extract_key_content. repeat split.
  - intros H. now rewrite (proj2 (Z.leb_le _ _) H).
  - rewrite (proj2 (Z.leb_gt _ _) (proj2 H)).
    unfold Utils.slice_upto, Utils.slice_from.
    assert (Hh : (1 <= max_length / 2)%Z)
      by (apply Z.div_le_lower_bound; lia).
    rewrite (proj2 (Z.leb_le 0 (max_length / 2)) ltac:(lia)).
    rewrite (proj2 (Z.leb_gt 0 (- (max_length / 2))) ltac:(lia)).
    now rewrite Z.opp_involutive.
  - rewrite (proj2 (Z.leb_gt _ _) (proj2 H)).
    unfold Utils.slice_upto, Utils.slice_from.
    assert (Hh : (1 <= max_length / 2)%Z)
      by (apply Z.div_le_lower_bound; lia).
    rewrite (proj2 (Z.leb_le 0 (max_length / 2)) ltac:(lia)).
    rewrite (proj2 (Z.leb_gt 0 (- (max_length / 2))) ltac:(lia)).
    rewrite Z.opp_involutive, !string_length_app, slice_to_length, drop_length.
    assert (Hle : (max_length / 2 <= max_length)%Z)
      by (apply Z.div_le_upper_bound; lia).
    change (String.length Utils.truncation_mark) with 46. lia.
  - rewrite (proj2 (Z.leb_gt _ _) (proj2 H)).
    unfold Utils.slice_upto, Utils.slice_from.
    assert (Hh : (1 <= max_length / 2)%Z)
      by (apply Z.div_le_lower_bound; lia).
    rewrite (proj2 (Z.leb_le 0 (max_length / 2)) ltac:(lia)).
    rewrite (proj2 (Z.leb_gt 0 (- (max_length / 2))) ltac:(lia)).
    rewrite Z.opp_involutive, !string_length_app, slice_to_length, drop_length.
    assert (Hle : (max_length / 2 <= max_length)%Z)
      by (apply Z.div_le_upper_bound; lia).
    change (String.length Utils.truncation_mark) with 46.
    assert (2 * (max_length / 2) <= max_length)%Z
      by (apply Z.mul_div_le; lia).
    lia.
  - rewrite (proj2 (Z.leb_gt _ _) (proj2 H)).
    unfold Utils.slice_upto, Utils.slice_from.
    assert (Hh : (1 <= max_length / 2)%Z)
      by (apply Z.div_le_lower_bound; lia).
    rewrite (proj2 (Z.leb_le 0 (max_length / 2)) ltac:(lia)).
    rewrite (proj2 (Z.leb_gt 0 (- (max_length / 2))) ltac:(lia)).
    rewrite Z.opp_involutive, !string_length_app, slice_to_length, drop_length.
    assert (Hle : (max_length / 2 <= max_length)%Z)
      by (apply Z.div_le_upper_bound; lia).
    change (String.length Utils.truncation_mark) with 46.
    pose proof (Z.mod_pos_bound max_length 2 ltac:(lia)).
    pose proof (Z.div_mod max_length 2 ltac:(lia)).
    lia.
  - intros H0 H1. rewrite (proj2 (Z.leb_gt _ _) H1).
    assert (Hh : (max_length / 2 = 0)%Z) by (apply Z.div_small; lia).
    rewrite Hh. reflexivity.
Qed.

Lemma extract_key_content_cases_witness :
  Utils.extract_key_content "abcdefghij" 10 = "abcdefghij"
  /\ String.length (Utils.extract_key_content "abcdefghij" 4) = 50
  /\ Utils.extract_key_content "abcdefghij" 1
     = Utils.truncation_mark ++ "abcdefghij".
Proof.
  split; [| split].
  - apply (proj1 (extract_key_content_cases "abcdefghij" 10)). simpl. lia.
  - apply (proj2 (proj1 (proj2 (extract_key_content_cases "abcdefghij" 4))
                    ltac:(simpl; lia))).
  - apply (proj2 (proj2 (extract_key_content_cases "abcdefghij" 1)));
      simpl; lia.
Defined.


(* ===================================================================== *)
(** * The matcher only returns matches of the pattern                     *)
(* ===================================================================== *)

Import MatchSpec.

Lemma append_cons (x : ascii) (a b : string) :
  String x a ++ b = String x (a ++ b).
Proof. reflexivity. Qed.

Lemma string_app_assoc (a b c : string) : (a ++ b) ++ c = a ++ (b ++ c).
Proof.
  induction a as [|x a IH]; [reflexivity |].
  now rewrite !append_cons, IH.
Qed.

Lemma consumed_app (w rest : string) : consumed (w ++ rest) rest = w.
Proof.
  unfold consumed. rewrite string_length_app.
  replace (String.length w + String.length rest - String.length rest)
    with (String.length w) by lia.
  induction w as [|x w IH]; [now destruct rest |].
  rewrite append_cons. simpl. now rewrite IH.
Qed.

Section Soundness.
Context {A : Type}.

Lemma rep_greedy_sound (p : ascii -> bool) (s : string) :
  forall (min : nat) (k : string -> option A) (x : A),
    rep_greedy p min s k = Some x ->
    exists w s',
      s = w ++ s' /\ all_chars p w = true /\ min <= String.length w
      /\ k s' = Some x.
Proof.
  induction s as [|c s IH]; intros min k x; simpl.
  - destruct min; [| discriminate]. intros H. exists "", "". auto.
  - assert (Hstop : match min with 0 => k (String c s) | S _ => None end
                    = Some x ->
                    exists w s', String c s = w ++ s'
                      /\ all_chars p w = true /\ min <= String.length w
                      /\ k s' = Some x).
    { destruct min; [| discriminate]. intros H. exists "", (String c s). auto. }
    destruct (p c) eqn:Hp; [| exact Hstop].
    destruct (rep_greedy p (Nat.pred min) s k) as [y|] eqn:E; [| exact Hstop].
    intros [= <-]. apply IH in E as (w & s' & -> & Hw & Hmin & Hk).
    exists (String c w), s'. simpl. rewrite Hp, Hw. repeat split; auto. lia.
Qed.

Lemma rep_lazy_sound (p : ascii -> bool) (s : string) :
  forall (min : nat) (k : string -> option A) (x : A),
    rep_lazy p min s k = Some x ->
    exists w s',
      s = w ++ s' /\ all_chars p w = true /\ min <= String.length w
      /\ k s' = Some x.
Proof.
  induction s as [|c s IH]; intros min k x; simpl.
  - destruct min; [| discriminate].
    destruct (k "") eqn:E; [| discriminate]. intros [= <-].
    exists "", "". auto.
  - assert (Hmore : (if p c then rep_lazy p (Nat.pred min) s k else None)
                    = Some x ->
                    exists w s', String c s = w ++ s'
                      /\ all_chars p w = true /\ min <= String.length w
                      /\ k s' = Some x).
    { destruct (p c) eqn:Hp; [| discriminate]. intros E.
      apply IH in E as (w & s' & -> & Hw & Hmin & Hk).
      exists (String c w), s'. simpl. rewrite Hp, Hw.
      repeat split; auto. lia. }
    destruct min as [|min]; [| exact Hmore].
    destruct (k (String c s)) eqn:E; [| exact Hmore].
    intros [= <-]. exists "", (String c s). auto.
Qed.

(** A successful run read a match of the pattern, and every capture it
    added is a match of the body of its group. *)
Lemma run_sound (P : nat -> string -> Prop) (ic : bool) (r : regex) :
  captures_ok P ic r ->
  forall (s : string) (g : groups) (k : string -> groups -> option A) (x : A),
    Forall (fun nw => P (fst nw) (snd nw)) g ->
    run ic r s g k = Some x ->
    exists w s' g',
      s = w ++ s' /\ matches ic r w
      /\ Forall (fun nw => P (fst nw) (snd nw)) g'
      /\ k s' g' = Some x.
Proof.
  induction r as [|cs|cs min greedy|r1 IH1 r2 IH2|n r IH|r IH];
    intros Hok s g k x Hg; simpl.
  - intros H. exists "", s, g. repeat split; auto. constructor.
  - destruct s as [|c s]; [discriminate |].
    destruct (in_set ic cs c) eqn:E; [| discriminate].
    intros H. exists (String c ""), s, g. repeat split; auto.
    now constructor.
  - intros H.
    assert (Hs : exists w s', s = w ++ s'
                   /\ all_chars (in_set ic cs) w = true
                   /\ min <= String.length w /\ k s' g = Some x).
    { destruct greedy;
        [apply rep_greedy_sound in H | apply rep_lazy_sound in H]; exact H. }
    destruct Hs as (w & s' & -> & Hw & Hmin & Hk).
    exists w, s', g. repeat split; auto. now constructor.
  - destruct Hok as [Hok1 Hok2]. intros H.
    apply (IH1 Hok1 _ _ _ _ Hg) in H as (w1 & s1 & g1 & -> & Hm1 & Hg1 & H).
    apply (IH2 Hok2 _ _ _ _ Hg1) in H as (w2 & s2 & g2 & -> & Hm2 & Hg2 & H).
    exists (w1 ++ w2), s2, g2. rewrite string_app_assoc.
    repeat split; auto. now constructor.
  - destruct Hok as [HP Hok]. intros H.
    apply (IH Hok _ _ _ _ Hg) in H as (w & s' & g' & -> & Hm & Hg' & H).
    rewrite consumed_app in H.
    exists w, s', ((n, w) :: g'). repeat split; auto.
    now constructor.
  - destruct (run ic r s g k) as [y|] eqn:E.
    + intros [= <-].
      apply (IH Hok _ _ _ _ Hg) in E as (w & s' & g' & -> & Hm & Hg' & H).
      exists w, s', g'. repeat split; auto. now constructor.
    + intros H. exists "", s, g. repeat split; auto. apply m_opt_none.
Qed.
End Soundness.

Lemma group_In (g : groups) (n : nat) (w : string) :
  group g n = Some w -> In (n, w) g.
Proof.
  induction g as [|[m v] g IH]; simpl; [discriminate |].
  destruct (Nat.eqb_spec m n) as [-> | Hne].
  - intros [= ->]. now left.
  - intros H. right. now apply IH.
Qed.

(** The captures of a match are matches of the bodies of their groups. *)
Lemma match_at_captures (ic : bool) (r : regex) (s rest : string)
    (g : groups) :
  captures_ok (captured_by ic r) ic r ->
  match_at ic r s = Some (rest, g) ->
  forall (n : nat) (w : string), group g n = Some w -> captured_by ic r n w.
Proof.
  intros Hok H n w Hn. unfold match_at in H.
  apply (run_sound (captured_by ic r) ic r Hok) in H
    as (w0 & s' & g' & _ & _ & Hg' & [= _ <-]); [| constructor].
  apply group_In in Hn. rewrite List.Forall_forall in Hg'.
  now apply (Hg' (n, w)).
Qed.


(* ===================================================================== *)
(** * The shape of the questions that the parser extracts                 *)
(* ===================================================================== *)

Import MatchSets.

Lemma all_chars_app (p : ascii -> bool) (a b : string) :
  all_chars p (a ++ b) = all_chars p a && all_chars p b.
Proof.
  induction a as [|x a IH]; [reflexivity |].
  rewrite append_cons. simpl. now rewrite IH, andb_assoc.
Qed.

Lemma all_chars_impl (p q : ascii -> bool) (s : string) :
  (forall c, p c = true -> q c = true) ->
  all_chars p s = true -> all_chars q s = true.
Proof.
  intros H. induction s as [|c s IH]; simpl; [reflexivity |].
  rewrite !andb_true_iff. intros [Hc Hs]. auto.
Qed.

Lemma all_chars_lstrip (q : ascii -> bool) (s : string) :
  all_chars q s = true -> all_chars q (Py.lstrip s) = true.
Proof.
  induction s as [|c s IH]; simpl; [reflexivity |].
  rewrite andb_true_iff. intros [Hc Hs].
  destruct (Py.isspace c); [auto | simpl; now rewrite Hc, Hs].
Qed.

Lemma all_chars_rstrip (q : ascii -> bool) (s : string) :
  all_chars q s = true -> all_chars q (Py.rstrip s) = true.
Proof.
  induction s as [|c s IH]; simpl; [reflexivity |].
  rewrite andb_true_iff. intros [Hc Hs]. specialize (IH Hs).
  destruct (Py.rstrip s) as [|d r].
  - destruct (Py.isspace c); simpl; [reflexivity | now rewrite Hc].
  - simpl in *. now rewrite Hc, IH.
Qed.

Lemma all_chars_strip (q : ascii -> bool) (s : string) :
  all_chars q s = true -> all_chars q (Py.strip s) = true.
Proof. intros H. now apply all_chars_rstrip, all_chars_lstrip. Qed.

(** A match of a pattern only holds characters that its sets accept. *)
Lemma matches_all_chars (ic : bool) (q : ascii -> bool) (r : regex)
    (w : string) :
  all_sets (set_within ic q) r -> matches ic r w -> all_chars q w = true.
Proof.
  intros Hsets Hm. induction Hm as
    [|cs c Hc|cs min greedy w Hw Hmin|r1 r2 w1 w2 H1 IH1 H2 IH2
     |n r w H IH|r w H IH|r]; simpl in Hsets.
  - reflexivity.
  - simpl. now rewrite (Hsets c Hc).
  - now apply (all_chars_impl (in_set ic cs)).
  - destruct Hsets as [Hs1 Hs2]. now rewrite all_chars_app, IH1, IH2.
  - auto.
  - auto.
  - reflexivity.
Qed.

(** The text kept from a group only holds characters that the sets of
    the group accept. *)
Lemma capture_chars (ic : bool) (r body : regex) (q : ascii -> bool)
    (s rest : string) (g : groups) (n : nat) :
  captures_ok (captured_by ic r) ic r ->
  match_at ic r s = Some (rest, g) ->
  group_body r n = Some body ->
  all_sets (set_within ic q) body ->
  all_chars q (Py.strip (group_str g n)) = true.
Proof.
  intros Hok Hm Hbody Hsets. unfold group_str.
  destruct (group g n) as [w|] eqn:E; simpl; [| reflexivity].
  destruct (match_at_captures ic r s rest g Hok Hm n w E)
    as (body' & Hb & Hw).
  rewrite Hbody in Hb. injection Hb as <-.
  apply all_chars_strip. now apply (matches_all_chars ic q body).
Qed.

Ltac captures_by_lookup :=
  repeat split; intros w Hw; eexists; (split; [reflexivity | exact Hw]).

Ltac by_char_cases :=
  let c := fresh "c" in
  intros c; destruct c as [[] [] [] [] [] [] [] []]; vm_compute; congruence.

Lemma mcq_pattern_captures (ic : bool) :
  captures_ok (captured_by ic mcq_pattern) ic mcq_pattern.
Proof. captures_by_lookup. Qed.

Lemma blank_pattern_captures (ic : bool) :
  captures_ok (captured_by ic blank_pattern) ic blank_pattern.
Proof. captures_by_lookup. Qed.

Lemma blank_pattern_simple_captures (ic : bool) :
  captures_ok (captured_by ic blank_pattern_simple) ic blank_pattern_simple.
Proof. captures_by_lookup. Qed.

Lemma short_pattern_captures (ic : bool) :
  captures_ok (captured_by ic short_pattern) ic short_pattern.
Proof. captures_by_lookup. Qed.

(** The number, the dot, the white space and the text of a numbered
    question avoid the character that stops the text. *)
Lemma numbered_A_to_D (ic : bool) :
  all_sets (set_within ic not_capital_A_to_D)
    (Re.seq [digits1; lit "."; spaces0; lazy1 (none_of [Range "A" "D"])]).
Proof. destruct ic; simpl; repeat split; by_char_cases. Qed.

Lemma is_not_by_self (x : ascii) (p : ascii -> bool) :
  p x = false -> forall c : ascii, p c = true -> is_not x c = true.
Proof.
  intros Hx c Hc. unfold is_not.
  destruct (Ascii.eqb_spec c x) as [-> | _]; [congruence | reflexivity].
Qed.

Lemma numbered_not (x : ascii) :
  Py.isdigit x = false -> Py.isspace x = false -> x <> "."%char ->
  all_sets (set_within false (is_not x))
    (Re.seq [digits1; lit "."; spaces0; lazy1 (none_of [Chr x])]).
Proof.
  intros Hd Hs Hdot. simpl. unfold set_within.
  repeat split; apply is_not_by_self; unfold in_set; simpl.
  - now rewrite Hd.
  - destruct (Ascii.eqb_spec x "."%char); [contradiction | reflexivity].
  - now rewrite Hs.
  - now rewrite Ascii.eqb_refl.
Qed.

Lemma none_of_not (ic : bool) (x : ascii) (min : nat) (greedy : bool) :
  all_sets (set_within ic (is_not x)) (Rep (none_of [Chr x]) min greedy).
Proof.
  simpl. unfold set_within. apply is_not_by_self. unfold in_set. simpl.
  destruct ic; now rewrite Ascii.eqb_refl.
Qed.

Lemma letter_lower (ic : bool) (c : ascii) :
  in_set ic (CSet false [Range "A" "D"]) c = true ->
  In (Py.lower_char c) ["a"; "b"; "c"; "d"]%char.
Proof.
  destruct ic, c as [[] [] [] [] [] [] [] []]; vm_compute;
    try congruence; tauto.
Qed.

(** X14: every multiple-choice question that the extraction finds, in
    the first pass or in the second, has a text without any capital A,
    B, C or D, so a question worded with one of these letters is never
    extracted; it has four options, the first without a capital B, the
    second without C, the third without D, the fourth without C; and
    its correct option is one letter among A to D, in either case. *)
Theorem parsed_mcq_shape (quiz_text : string) (q : mcq) :
  In q (mcq_questions (parsed quiz_text)) ->
  all_chars not_capital_A_to_D (mcq_question q) = true
  /\ (exists o1 o2 o3 o4 : string,
         mcq_options q = [o1; o2; o3; o4]
         /\ all_chars (is_not "B") o1 = true
         /\ all_chars (is_not "C") o2 = true
         /\ all_chars (is_not "D") o3 = true
         /\ all_chars (is_not "C") o4 = true)
  /\ (exists c : ascii,
         mcq_correct q = String c ""
         /\ In (Py.lower_char c) ["a"; "b"; "c"; "d"]%char).
Proof.
  rewrite parsed_mcq_questions, List.in_map_iff. intros (g & <- & Hg).
  assert (Hm : exists ic s rest, match_at ic mcq_pattern s = Some (rest, g)).
  { unfold mcq_matches in Hg.
    destruct (findall false mcq_pattern quiz_text) as [|g0 gs] eqn:E.
    - apply findall_from_match in Hg as (s & rest & H). now exists true, s, rest.
    - rewrite <- E in Hg.
      apply findall_from_match in Hg as (s & rest & H).
      now exists false, s, rest. }
  destruct Hm as (ic & s & rest & Hm).
  pose proof (capture_chars ic mcq_pattern) as Hcap.
  specialize (fun body q n => Hcap body q s rest g n (mcq_pattern_captures ic) Hm).
  repeat split.
  - apply (Hcap _ _ 1 eq_refl). apply numbered_A_to_D.
  - eexists _, _, _, _. split; [reflexivity |]. repeat split.
    + apply (Hcap _ _ 2 eq_refl). apply none_of_not.
    + apply (Hcap _ _ 3 eq_refl). apply none_of_not.
    + apply (Hcap _ _ 4 eq_refl). apply none_of_not.
    + apply (Hcap _ _ 5 eq_refl). apply none_of_not.
  - destruct (mcq_match_letter ic s rest g Hm) as (c & Hc & Hin).
    exists c. split; [exact Hc |]. now apply (letter_lower ic).
Qed.

Lemma parsed_mcq_shape_witness :
  all_chars not_capital_A_to_D "2. Sky?" = true
  /\ (exists c : ascii,
         "B" = String c "" /\ In (Py.lower_char c) ["a"; "b"; "c"; "d"]%char).
Proof.
  destruct (parsed_mcq_shape
              "2. Sky? A) red B) blue C) pink D) grey Correct Answer: B"
              (Mcq "2. Sky?" ["red"; "blue"; "pink"; "grey"] "B")
              ltac:(vm_compute; tauto)) as (H1 & _ & H3).
  split; [exact H1 | exact H3].
Defined.

(** X15: every blank that the extraction finds, with the hint pattern
    or with the simple one, has a question without any underscore and
    an answer without a line break: the answer is what follows
    "Answer:" on its line. *)
Theorem parsed_blank_shape (quiz_text : string) (q : blank) :
  In q (fill_blanks (parsed quiz_text)) ->
  all_chars (is_not "_") (blank_question q) = true
  /\ all_chars (is_not nl) (blank_answer q) = true.
Proof.
  rewrite parsed_fill_blanks, List.in_map_iff. intros (g & <- & Hg).
  unfold blank_matches in Hg.
  destruct (findall false blank_pattern quiz_text) as [|g0 gs] eqn:E.
  - apply findall_from_match in Hg as (s & rest & Hm).
    pose proof (capture_chars false blank_pattern_simple) as Hcap.
    specialize (fun body q n =>
                  Hcap body q s rest g n (blank_pattern_simple_captures false) Hm).
    split.
    + apply (Hcap _ _ 1 eq_refl). now apply numbered_not.
    + apply (Hcap _ _ 2 eq_refl). apply none_of_not.
  - rewrite <- E in Hg. apply findall_from_match in Hg as (s & rest & Hm).
    pose proof (capture_chars false blank_pattern) as Hcap.
    specialize (fun body q n =>
                  Hcap body q s rest g n (blank_pattern_captures false) Hm).
    split.
    + apply (Hcap _ _ 1 eq_refl). now apply numbered_not.
    + apply (Hcap _ _ 2 eq_refl). apply none_of_not.
Qed.

Lemma parsed_blank_shape_witness :
  all_chars (is_not "_") "1. The sky is" = true
  /\ all_chars (is_not nl) "blue" = true.
Proof.
  apply (parsed_blank_shape "1. The sky is ______. Answer: blue"
           (Blank "1. The sky is" "blue")).
  vm_compute. tauto.
Defined.

Lemma search_match (ic : bool) (r : regex) (s : string) (g : groups) :
  search ic r s = Some g ->
  exists s' rest, match_at ic r s' = Some (rest, g).
Proof.
  induction s as [|c s IH]; simpl.
  - destruct (match_at ic r "") as [[rest g0]|] eqn:E; [| discriminate].
    intros [= <-]. eauto.
  - destruct (match_at ic r (String c s)) as [[rest g0]|] eqn:E.
    + intros [= <-]. eauto.
    + exact IH.
Qed.

(** X16: every short-answer question that the extraction finds has a
    question without any capital E and an expected answer without a
    line break. *)
Theorem parsed_short_shape (quiz_text : string) (q : short) :
  In q (short_items (short_answer (parsed quiz_text))) ->
  all_chars (is_not "E") (short_question q) = true
  /\ all_chars (is_not nl) (short_expected q) = true.
Proof.
  unfold parsed. simpl. unfold short_match.
  destruct (search false short_pattern quiz_text) as [g|] eqn:E;
    [| simpl; tauto].
  apply search_match in E as (s & rest & Hm).
  pose proof (capture_chars false short_pattern) as Hcap.
  specialize (fun body q n =>
                Hcap body q s rest g n (short_pattern_captures false) Hm).
  assert (H1 : all_chars (is_not "E") (Py.strip (group_str g 1)) = true)
    by (apply (Hcap _ _ 1 eq_refl); now apply numbered_not).
  assert (H2 : all_chars (is_not nl) (Py.strip (group_str g 2)) = true)
    by (apply (Hcap _ _ 2 eq_refl); apply none_of_not).
  assert (H3 : all_chars (is_not "E") (Py.strip (group_str g 3)) = true)
    by (apply (Hcap _ _ 3 eq_refl); apply none_of_not).
  assert (H4 : all_chars (is_not nl) (Py.strip (group_str g 4)) = true)
    by (apply (Hcap _ _ 4 eq_refl); apply none_of_not).
  unfold short_of_match.
  destruct (group g 3) as [[|c w]|]; simpl;
    intuition (subst; simpl; auto).
Qed.

Lemma parsed_short_shape_witness :
  all_chars (is_not "E") "Say how?" = true
  /\ all_chars (is_not nl) "like this" = true.
Proof.
  apply (parsed_short_shape three_short_answers (Short "Say how?" "like this")).
  vm_compute. tauto.
Defined.

(* ===================================================================== *)
(** * Cleaning the text of the fallback model                             *)
(* ===================================================================== *)

Lemma split_on_cons (sep : ascii) (s : string) :
  exists piece pieces, Providers.split_on sep s = piece :: pieces.
Proof.
  destruct s as [|c s]; simpl; [eauto |].
  destruct (Ascii.eqb c sep); [eauto |].
  destruct (Providers.split_on sep s); eauto.
Qed.

Lemma split_on_free (sep : ascii) (s : string) :
  Providers.free_of sep s = true -> Providers.split_on sep s = [s].
Proof.
  unfold Providers.free_of.
  induction s as [|c s IH]; simpl; [reflexivity |].
  unfold is_not at 1. rewrite andb_true_iff, negb_true_iff.
  intros [Hc Hs]. now rewrite Hc, (IH Hs).
Qed.

Lemma split_on_last (sep : ascii) (tail : string) :
  Providers.free_of sep tail = true ->
  forall head : string,
    Providers.split_on sep (head ++ String sep tail)
    = (Providers.split_on sep head ++ [tail])%list.
Proof.
  intros Hfree. induction head as [|c head IH].
  - simpl. now rewrite Ascii.eqb_refl, (split_on_free sep tail Hfree).
  - rewrite append_cons. simpl. rewrite IH.
    destruct (Ascii.eqb c sep); [reflexivity |].
    destruct (split_on_cons sep head) as (piece & pieces & ->). reflexivity.
Qed.

Lemma join_cons (sep x : string) (y : string) (l : list string) :
  PyList.join sep (x :: y :: l) = x ++ sep ++ PyList.join sep (y :: l).
Proof. reflexivity. Qed.

(** [sep.join(s.split(sep))] is [s]. *)
Lemma join_split_on (sep : ascii) (s : string) :
  PyList.join (String sep "") (Providers.split_on sep s) = s.
Proof.
  induction s as [|c s IH]; [reflexivity |]. simpl.
  destruct (split_on_cons sep s) as (piece & pieces & E). rewrite E in *.
  destruct (Ascii.eqb_spec c sep) as [-> | _].
  - rewrite join_cons, IH. reflexivity.
  - destruct pieces as [|y l].
    + simpl in *. now rewrite IH.
    + rewrite join_cons in *. rewrite append_cons. now rewrite IH.
Qed.

(** X17: [_clean_text] first puts single spaces between the words.  A
    text without a full stop is returned so; a text with one keeps what
    follows its last full stop only when that has 10 characters or more
    once stripped, and is cut after the last full stop otherwise. *)
Theorem clean_text_cases (text : string) :
  let spaced := PyList.join " " (Py.split text) in
  (Providers.free_of "." spaced = true ->
   Providers.clean_text text = Py.strip spaced)
  /\ (forall head tail : string,
         spaced = head ++ "." ++ tail ->
         Providers.free_of "." tail = true ->
         Providers.clean_text text
         = Py.strip (if Nat.ltb (String.length (Py.strip tail)) 10
                     then head ++ "."
                     else spaced)).
Proof.
  cbv zeta. unfold Providers.clean_text. split.
  - intros Hfree. now rewrite (split_on_free _ _ Hfree).
  - intros head tail E Hfree. rewrite E.
    change (head ++ "." ++ tail) with (head ++ String "." tail).
    rewrite (split_on_last "." tail Hfree head).
    rewrite List.last_last, List.removelast_last, List.length_app.
    destruct (split_on_cons "." head) as (piece & pieces & Hp).
    rewrite Hp at 1. simpl List.length.
    replace (Nat.ltb 1 (S (List.length pieces) + 1)) with true
      by (symmetry; apply Nat.ltb_lt; lia).
    rewrite join_split_on. reflexivity.
Qed.

Lemma clean_text_cases_witness :
  Providers.clean_text "  Hello   world. This   is long enough. abc  "
  = "Hello world. This is long enough.".
Proof.
  rewrite (proj2 (clean_text_cases
                    "  Hello   world. This   is long enough. abc  ")
             "Hello world. This is long enough" " abc");
    vm_compute; reflexivity.
Defined.

(* ===================================================================== *)
(** * The explanation and the quiz with the fallback model                *)
(* ===================================================================== *)



(** X19: when the quiz chain raises and the fallback returns a usable
    text, [generate_quiz] returns the canned text of
    [_format_fallback_quiz], and the parser does not find its seven
    questions in it: of that text it extracts no multiple-choice
    question and no short-answer question, and a single blank, with the
    answer "resume", whose question is the text from the first question
    number to the blank. *)
Theorem generate_quiz_fallback_parsed (m : Chains.models)
    (topic content message fallback_response : string) :
  Chains.quiz_chain_run m (Chains.quiz_input topic content)
  = Chains.Raised message ->
  Chains.generate_with_fallback m (Chains.quiz_fallback_prompt topic) 1500
  = Chains.Returned fallback_response ->
  Chains.usable fallback_response = true ->
  let quiz :=
    parse_quiz_for_display (Chains.generate_quiz m topic content) in
  mcq_questions quiz = []
  /\ short_answer quiz = NoShort
  /\ List.map blank_answer (fill_blanks quiz) = ["resume"]
  /\ List.map (fun b => String.length (blank_question b)) (fill_blanks quiz)
     = [553]
  /\ item_count quiz = 1.
Proof.
  intros Hq Hf Hu. cbv zeta.
  assert (E : Chains.generate_quiz m topic content
              = Chains.format_fallback_quiz fallback_response topic).
  { unfold Chains.generate_quiz. cbv zeta.
    unfold Chains.quiz_input in Hq. unfold Chains.quiz_fallback_prompt in Hf.
    rewrite Hq, Hf, Hu. reflexivity. }
  rewrite E. vm_compute. repeat split.
Qed.

Lemma generate_quiz_fallback_parsed_witness :
  let m :=
    Chains.Models (fun _ => Chains.Raised "no key")
      (fun _ => Chains.Raised "no key")
      (fun _ _ => Chains.Returned "some words") in
  item_count (parse_quiz_for_display (Chains.generate_quiz m "cv" "")) = 1.
Proof.
  cbv zeta.
  apply (generate_quiz_fallback_parsed
           (Chains.Models (fun _ => Chains.Raised "no key")
              (fun _ => Chains.Raised "no key")
              (fun _ _ => Chains.Returned "some words"))
           "cv" "" "no key" "some words"); reflexivity.
Defined.
